(** * Verification of the S3-to-ECR backup handler (src/lambda/handler.py)

    The development embeds the four functions of the handler,
    [ensure_repository_exists], [upload_to_ecr], [cleanup_untagged_images]
    and [lambda_handler], as functions of a small state-and-exception monad
    over an oracle for the AWS services, and proves the properties of the
    specification about them. *)

From Stdlib Require Import ZArith List String Ascii Bool Lia.
From Stdlib Require Import Strings.Byte.
From Stdlib Require Import Decimal DecimalNat DecimalString.
Import ListNotations.

Set Warnings "-register-all".

(** ** SHA-256 (hashlib.sha256), after FIPS 180-4

    32-bit words are integers of [Z], every addition reduced modulo 2^32. *)

Module SHA256.
Local Open Scope Z_scope.

Definition wrap32 (x : Z) : Z := x mod 2 ^ 32.
Definition add32 (x y : Z) : Z := wrap32 (x + y).
Definition rotr (n x : Z) : Z :=
  Z.lor (Z.shiftr x n) (wrap32 (Z.shiftl x (32 - n))).
Definition shr (n x : Z) : Z := Z.shiftr x n.
Definition not32 (x : Z) : Z := Z.lxor x 0xffffffff.

Definition Ch (x y z : Z) : Z := Z.lxor (Z.land x y) (Z.land (not32 x) z).
Definition Maj (x y z : Z) : Z :=
  Z.lxor (Z.lxor (Z.land x y) (Z.land x z)) (Z.land y z).
Definition Sigma0 (x : Z) : Z := Z.lxor (Z.lxor (rotr 2 x) (rotr 13 x)) (rotr 22 x).
Definition Sigma1 (x : Z) : Z := Z.lxor (Z.lxor (rotr 6 x) (rotr 11 x)) (rotr 25 x).
Definition sigma0 (x : Z) : Z := Z.lxor (Z.lxor (rotr 7 x) (rotr 18 x)) (shr 3 x).
Definition sigma1 (x : Z) : Z := Z.lxor (Z.lxor (rotr 17 x) (rotr 19 x)) (shr 10 x).

(** The constants are what FIPS 180-4 says they are: the first 32 bits of
    the fractional parts of the cube roots (for [K]) and of the square roots
    (for [H0]) of the first primes. *)
Definition is_prime (p : Z) : bool :=
  forallb (fun d => negb (p mod d =? 0))
          (map Z.of_nat (seq 2 (Z.to_nat (Z.sqrt p) - 1))).

Definition primes (count : nat) : list Z :=
  firstn count (filter is_prime (map Z.of_nat (seq 2 400))).

(** The integer cube root, one bit at a time from bit 39 down. *)
Definition cube_root (x : Z) : Z :=
  fold_left (fun r i => let r' := r + 2 ^ Z.of_nat i in
                        if r' * r' * r' <=? x then r' else r)
            (List.rev (seq 0 40)) 0.

Definition K : list Z :=
  map (fun p => wrap32 (cube_root (p * 2 ^ 96))) (primes 64).

(** The eight working variables, and the chaining value between blocks. *)
Record regs : Type := Regs {
  ra : Z; rb : Z; rc : Z; rd : Z; re : Z; rf : Z; rg : Z; rh : Z
}.

Definition fraction_of_root (p : Z) : Z := wrap32 (Z.sqrt (p * 2 ^ 64)).

Definition H0 : regs :=
  match map fraction_of_root (primes 8) with
  | [a; b; c; d; e; f; g; h] => Regs a b c d e f g h
  | _ => Regs 0 0 0 0 0 0 0 0
  end.

(** Message schedule: [win] holds W(t-16) .. W(t-1), oldest first. *)
Fixpoint schedule (n : nat) (win : list Z) : list Z :=
  match n, win with
  | S n', w0 :: rest =>
      let wt := add32 (add32 (sigma1 (nth 14 win 0)) (nth 9 win 0))
                      (add32 (sigma0 (nth 1 win 0)) w0) in
      w0 :: schedule n' (rest ++ [wt])
  | _, _ => []
  end.

Definition round (s : regs) (kw : Z * Z) : regs :=
  let '(k, w) := kw in
  let t1 := add32 (add32 (add32 (add32 (rh s) (Sigma1 (re s)))
                                (Ch (re s) (rf s) (rg s))) k) w in
  let t2 := add32 (Sigma0 (ra s)) (Maj (ra s) (rb s) (rc s)) in
  Regs (add32 t1 t2) (ra s) (rb s) (rc s) (add32 (rd s) t1) (re s) (rf s) (rg s).

Definition compress (h : regs) (block : list Z) : regs :=
  let s := fold_left round (combine K (schedule 64 block)) h in
  Regs (add32 (ra h) (ra s)) (add32 (rb h) (rb s)) (add32 (rc h) (rc s))
       (add32 (rd h) (rd s)) (add32 (re h) (re s)) (add32 (rf h) (rf s))
       (add32 (rg h) (rg s)) (add32 (rh h) (rh s)).

(** Big-endian packing of bytes into 32-bit words. *)
Fixpoint words_of (bs : list Z) : list Z :=
  match bs with
  | b0 :: b1 :: b2 :: b3 :: rest =>
      (Z.shiftl b0 24 + Z.shiftl b1 16 + Z.shiftl b2 8 + b3) :: words_of rest
  | _ => []
  end.

Fixpoint be_bytes (n : nat) (x : Z) : list Z :=
  match n with
  | O => []
  | S n' => Z.shiftr x (8 * Z.of_nat n') mod 256 :: be_bytes n' x
  end.

(** Padding: the bit 1, zeros up to 56 modulo 64, the bit length on 64 bits. *)
Definition pad (msg : list Z) : list Z :=
  let len := Z.of_nat (List.length msg) in
  msg ++ [0x80] ++ repeat 0 (Z.to_nat ((55 - len) mod 64)) ++ be_bytes 8 (8 * len).

Fixpoint blocks (fuel : nat) (bs : list Z) : list (list Z) :=
  match fuel, bs with
  | S fuel', _ :: _ => words_of (firstn 64 bs) :: blocks fuel' (skipn 64 bs)
  | _, _ => []
  end.

Definition sha256 (msg : list byte) : regs :=
  let p := pad (map (fun b => Z.of_N (Byte.to_N b)) msg) in
  fold_left compress (blocks (List.length p) p) H0.

Definition hex_digit (d : Z) : ascii :=
  ascii_of_N (Z.to_N (if d <? 10 then 48 + d else 87 + d)).

Definition nibble (w : Z) (i : Z) : ascii := hex_digit (Z.shiftr w (4 * i) mod 16).

Definition hex32 (w : Z) (tail : string) : string :=
  String (nibble w 7) (String (nibble w 6) (String (nibble w 5) (String (nibble w 4)
  (String (nibble w 3) (String (nibble w 2) (String (nibble w 1) (String (nibble w 0)
  tail))))))).

(** [hashlib.sha256(msg).hexdigest()]: 64 lower-case hexadecimal characters. *)
Definition hexdigest (msg : list byte) : string :=
  let h := sha256 msg in
  hex32 (ra h) (hex32 (rb h) (hex32 (rc h) (hex32 (rd h)
  (hex32 (re h) (hex32 (rf h) (hex32 (rg h) (hex32 (rh h) EmptyString))))))).

End SHA256.

Definition bytes_of_string (s : string) : list byte :=
  map byte_of_ascii (list_ascii_of_string s).


(** ** Python values, exceptions and the AWS interface *)

Local Open Scope string_scope.

(** The values the handler returns to its caller. *)
Inductive pyval : Type :=
| PyNone
| PyInt (z : Z)
| PyStr (s : string)
| PyList (l : list pyval)
| PyDict (d : list (string * pyval)).

(** Exceptions.  [RepositoryNotFoundException] is the modelled service
    exception of the ECR client, a subclass of [ClientError]; every exception
    that is not a [ClientError] (ValueError, IndexError, the connection
    errors of botocore, ...) is an [OtherException] with its class name. *)
Inductive exn : Type :=
| ClientError (code message : string)
| RepositoryNotFoundException (message : string)
| OtherException (class message : string).

(** [isinstance(e, ClientError)] *)
Definition is_ClientError (e : exn) : bool :=
  match e with
  | ClientError _ _ | RepositoryNotFoundException _ => true
  | OtherException _ _ => false
  end.

(** [isinstance(e, ecr_client.exceptions.RepositoryNotFoundException)] *)
Definition is_RepositoryNotFoundException (e : exn) : bool :=
  match e with
  | RepositoryNotFoundException _ => true
  | _ => false
  end.

(** [str(e)], as the f-strings of the log messages render an exception. *)
Definition str_exn (e : exn) : string :=
  match e with
  | ClientError _ m | RepositoryNotFoundException m | OtherException _ m => m
  end.

Inductive reply (A : Type) : Type :=
| Reply (r : A)
| Fault (e : exn).
Arguments Reply {A} r.
Arguments Fault {A} e.

(** Response shapes: a field read with [resp["k"]] is a record field, a field
    read with [.get("k", [])] or tested with [in] is optional. *)
Record repository_info : Type := { repositoryUri : string }.
Record describe_repositories_response : Type :=
  { repositories : list repository_info }.
Record create_repository_response : Type := { repository : repository_info }.
Record authorization_data : Type :=
  { authorizationToken : string; proxyEndpoint : string }.
Record get_authorization_token_response : Type :=
  { authorizationData : list authorization_data }.
Record initiate_layer_upload_response : Type := { uploadId : string }.
Record image_detail : Type := { imageDigest : option string }.
Record describe_images_response : Type :=
  { imageDetails : option (list image_detail) }.
(** The dict [{"imageDigest": d}]. *)
Inductive image_identifier : Type := ImageId (digest : string).
Record image_failure : Type :=
  { failureId : image_identifier; failureCode : string; failureReason : string }.
Record batch_delete_image_response : Type :=
  { imageIds : option (list image_identifier);
    failures : option (list image_failure) }.
Record s3_object : Type := { Key : string }.
Record list_objects_v2_response : Type :=
  { Contents : option (list s3_object) }.

(** The client calls of the handler, with their keyword arguments.  A name
    read from the environment is [None] when the variable is unset.
    [get_object] stands for [get_object(...)["Body"].read()], which the
    handler runs inside one [try] block. *)
Inductive call : Type :=
| describe_repositories (repositoryNames : list (option string))
| create_repository (repositoryName : option string)
| get_authorization_token
| initiate_layer_upload (repositoryName : option string)
| upload_layer_part (repositoryName : option string) (upload_id : string)
    (partFirstByte partLastByte : Z) (layerPartBlob : list byte)
| complete_layer_upload (repositoryName : option string) (upload_id : string)
    (layerDigests : list string)
| put_image (repositoryName : option string) (imageManifest imageTag : string)
| describe_images (repositoryName : option string) (tagStatus : string)
| batch_delete_image (repositoryName : option string)
    (image_ids : list image_identifier)
| list_objects_v2 (Bucket : option string) (Prefix : string)
| get_object (Bucket : option string) (key : string).

Definition response (c : call) : Type :=
  match c with
  | describe_repositories _ => describe_repositories_response
  | create_repository _ => create_repository_response
  | get_authorization_token => get_authorization_token_response
  | initiate_layer_upload _ => initiate_layer_upload_response
  | upload_layer_part _ _ _ _ _ => unit
  | complete_layer_upload _ _ _ => unit
  | put_image _ _ _ => unit
  | describe_images _ _ => describe_images_response
  | batch_delete_image _ _ => batch_delete_image_response
  | list_objects_v2 _ _ => list_objects_v2_response
  | get_object _ _ => list byte
  end.

Inductive log_level : Type := INFO | WARNING | ERROR.

(** What a run does that can be observed: client calls and log records. *)
Inductive event : Type :=
| Request (c : call)
| Log (level : log_level) (msg : string).

(** The services: the answer to a call may depend on all that happened
    before it, given in the order it happened. *)
Definition world : Type := forall (history : list event) (c : call), reply (response c).

(** The functions of Python's library whose result on a malformed token is
    CPython's own: [base64.b64decode], [bytes.decode] and the [repr] of the
    failure list in a log message. *)
Record pylib : Type := {
  b64decode : string -> reply (list byte);
  bytes_decode : list byte -> reply string;
  repr_failures : list image_failure -> string
}.

(** [os.environ] as the module reads it at import. *)
Record environ : Type := {
  S3_BUCKET_NAME : option string;
  S3_PREFIX_FILTER : string;
  ECR_REPO_NAME : option string
}.

(** ** The monad of the handler: a trace of events and exceptions *)

Inductive outcome (A : Type) : Type :=
| Returned (a : A)
| Raised (e : exn).
Arguments Returned {A} a.
Arguments Raised {A} e.

Definition M (A : Type) : Type := list event -> outcome A * list event.

Definition ret {A : Type} (a : A) : M A := fun t => (Returned a, t).

Definition raise {A : Type} (e : exn) : M A := fun t => (Raised e, t).

Definition bind {A B : Type} (m : M A) (k : A -> M B) : M B :=
  fun t =>
    match m t with
    | (Returned a, t') => k a t'
    | (Raised e, t') => (Raised e, t')
    end.

Notation "x <- m ;; k" := (bind m (fun x => k))
  (at level 61, m at next level, right associativity).
Notation "m ;; k" := (bind m (fun _ => k))
  (at level 61, right associativity).

(** [try: body except cls as e: handler e] *)
Definition try_except {A : Type} (body : M A) (cls : exn -> bool)
    (handler : exn -> M A) : M A :=
  fun t =>
    match body t with
    | (Raised e, t') => if cls e then handler e t' else (Raised e, t')
    | r => r
    end.

Definition log (level : log_level) (msg : string) : M unit :=
  fun t => (Returned tt, (t ++ [Log level msg])%list).

Definition lift {A : Type} (r : reply A) : M A :=
  match r with
  | Reply a => ret a
  | Fault e => raise e
  end.

(** [l[0]] *)
Definition index0 {A : Type} (l : list A) : M A :=
  match l with
  | x :: _ => ret x
  | [] => raise (OtherException "IndexError" "list index out of range")
  end.

(** [s.split(sep)] for a one-character separator. *)
Fixpoint split (sep : ascii) (s : string) : list string :=
  match s with
  | EmptyString => [EmptyString]
  | String c rest =>
      if Ascii.eqb c sep then EmptyString :: split sep rest
      else match split sep rest with
           | p :: ps => String c p :: ps
           | [] => [String c EmptyString]
           end
  end.

(** [str(n)] of a non-negative integer, as an f-string renders a length. *)
Definition str_nat (n : nat) : string := NilEmpty.string_of_uint (Nat.to_uint n).

(** [a, b = l] *)
Definition unpack2 (l : list string) : M (string * string) :=
  match l with
  | [a; b] => ret (a, b)
  | [] | [_] =>
      raise (OtherException "ValueError"
               ("not enough values to unpack (expected 2, got "
                ++ str_nat (List.length l) ++ ")"))
  | _ => raise (OtherException "ValueError" "too many values to unpack (expected 2)")
  end.

(** [str(v)] of a name read from the environment. *)
Definition str_env (v : option string) : string :=
  match v with
  | Some s => s
  | None => "None"
  end.

Definition dq : string := String (ascii_of_nat 34) EmptyString.
Definition nl : string := String (ascii_of_nat 10) EmptyString.

(** The f-string of [put_image]'s [imageManifest], line by line. *)
Definition image_manifest (layer_digest : string) (size : nat) : string :=
  nl ++
  "            {" ++ nl ++
  "                " ++ dq ++ "schemaVersion" ++ dq ++ ": 2," ++ nl ++
  "                " ++ dq ++ "mediaType" ++ dq ++ ": " ++ dq
    ++ "application/vnd.oci.image.manifest.v1+json" ++ dq ++ "," ++ nl ++
  "                " ++ dq ++ "config" ++ dq ++ ": {" ++ nl ++
  "                    " ++ dq ++ "mediaType" ++ dq ++ ": " ++ dq
    ++ "application/vnd.oci.image.config.v1+json" ++ dq ++ "," ++ nl ++
  "                    " ++ dq ++ "digest" ++ dq ++ ": " ++ dq
    ++ layer_digest ++ dq ++ "," ++ nl ++
  "                    " ++ dq ++ "size" ++ dq ++ ": " ++ str_nat size ++ nl ++
  "                }," ++ nl ++
  "                " ++ dq ++ "layers" ++ dq ++ ": [" ++ nl ++
  "                    {" ++ nl ++
  "                        " ++ dq ++ "mediaType" ++ dq ++ ": " ++ dq
    ++ "application/vnd.oci.image.layer.v1.tar" ++ dq ++ "," ++ nl ++
  "                        " ++ dq ++ "digest" ++ dq ++ ": " ++ dq
    ++ layer_digest ++ dq ++ "," ++ nl ++
  "                        " ++ dq ++ "size" ++ dq ++ ": " ++ str_nat size ++ nl ++
  "                    }" ++ nl ++
  "                ]" ++ nl ++
  "            }" ++ nl ++
  "            ".

(** ** The handler *)

Section Handler.

Variable lib : pylib.
Variable env : environ.
Variable aws : world.

(** A client call: the oracle answers from the history, the call is recorded. *)
Definition request (c : call) : M (response c) :=
  fun t =>
    match aws t c with
    | Reply r => (Returned r, (t ++ [Request c])%list)
    | Fault e => (Raised e, (t ++ [Request c])%list)
    end.

Definition ensure_repository_exists : M string :=
  try_except
    (response <- request (describe_repositories [ECR_REPO_NAME env]) ;;
     log INFO ("ECR repository '" ++ str_env (ECR_REPO_NAME env)
               ++ "' already exists.") ;;
     r <- index0 (repositories response) ;;
     ret (repositoryUri r))
    is_RepositoryNotFoundException
    (fun _ =>
       log INFO ("ECR repository '" ++ str_env (ECR_REPO_NAME env)
                 ++ "' not found, creating...") ;;
       response <- request (create_repository (ECR_REPO_NAME env)) ;;
       ret (repositoryUri (repository response))).

Definition upload_to_ecr (object_key : string) (file_bytes : list byte) : M string :=
  log INFO ("Uploading S3 object '" ++ object_key ++ "' to ECR...") ;;
  let file_hash := substring 0 12 (SHA256.hexdigest file_bytes) in
  let image_tag := file_hash in
  auth <- request get_authorization_token ;;
  d <- index0 (authorizationData auth) ;;
  token <- lift (b64decode lib (authorizationToken d)) ;;
  text <- lift (bytes_decode lib token) ;;
  up <- unpack2 (split ":" text) ;;
  let '(username, password) := up in
  d' <- index0 (authorizationData auth) ;;
  let registry := proxyEndpoint d' in
  try_except
    (layer_upload <- request (initiate_layer_upload (ECR_REPO_NAME env)) ;;
     let upload_id := uploadId layer_upload in
     request (upload_layer_part (ECR_REPO_NAME env) upload_id 0
                (Z.of_nat (List.length file_bytes) - 1) file_bytes) ;;
     let layer_digest := "sha256:" ++ SHA256.hexdigest file_bytes in
     request (complete_layer_upload (ECR_REPO_NAME env) upload_id [layer_digest]) ;;
     request (put_image (ECR_REPO_NAME env)
                (image_manifest layer_digest (List.length file_bytes)) image_tag) ;;
     log INFO ("Uploaded as image tag: " ++ image_tag) ;;
     ret image_tag)
    is_ClientError
    (fun e =>
       log ERROR ("Failed to upload to ECR: " ++ str_exn e) ;;
       raise e).

(** [d.get(k, [])] on an optional list field. *)
Definition get_default {A : Type} (field : option (list A)) : list A :=
  match field with
  | Some l => l
  | None => []
  end.

(** [[{"imageDigest": img["imageDigest"]} for img in image_ids
      if "imageDigest" in img]] *)
Definition batch_of (image_ids : list image_detail) : list image_identifier :=
  flat_map (fun img =>
              match imageDigest img with
              | Some d => [ImageId d]
              | None => []
              end) image_ids.

(** [cleanup_untagged_images] is written after [upload_to_ecr] with its
    [def] line indented by one level; it is embedded as the module-level
    function its body and its name describe.  A bare [return], and the end
    of the body, return [None]. *)
Definition cleanup_untagged_images : M pyval :=
  log INFO "Starting cleanup: deleting untagged images..." ;;
  described <-
    try_except
      (images <- request (describe_images (ECR_REPO_NAME env) "UNTAGGED") ;;
       ret (Some images))
      is_ClientError
      (fun e =>
         log ERROR ("Failed to describe images for cleanup: " ++ str_exn e) ;;
         ret None) ;;
  match described with
  | None => ret PyNone
  | Some images =>
      let image_ids := get_default (imageDetails images) in
      match image_ids with
      | [] => log INFO "No untagged images found" ;; ret PyNone
      | _ :: _ =>
          let batch := batch_of image_ids in
          try_except
            (delete_result <-
               request (batch_delete_image (ECR_REPO_NAME env) batch) ;;
             let deleted := get_default (imageIds delete_result) in
             let failed := get_default (failures delete_result) in
             log INFO ("Deleted " ++ str_nat (List.length deleted)
                       ++ " untagged images.") ;;
             match failed with
             | [] => ret tt
             | _ :: _ =>
                 log WARNING ("Some images failed to delete: "
                              ++ repr_failures lib failed)
             end)
            is_ClientError
            (fun e =>
               log ERROR ("Failed to delete untagged images: " ++ str_exn e)) ;;
          ret PyNone
      end
  end.

(** The loop [for obj in response["Contents"]], with the list [results]
    it appends to. *)
Fixpoint process_objects (contents : list s3_object) (results : list pyval)
    : M (list pyval) :=
  match contents with
  | [] => ret results
  | obj :: rest =>
      let key := Key obj in
      log INFO ("Processing S3 object: " ++ key) ;;
      fetched <-
        try_except
          (file_bytes <- request (get_object (S3_BUCKET_NAME env) key) ;;
           ret (Some file_bytes))
          is_ClientError
          (fun e =>
             log ERROR ("Error downloading S3 object '" ++ key ++ "': "
                        ++ str_exn e) ;;
             ret None) ;;
      match fetched with
      | None => process_objects rest results
      | Some file_bytes =>
          image_tag <- upload_to_ecr key file_bytes ;;
          process_objects rest
            (results ++ [PyDict [("object_key", PyStr key);
                                 ("image_tag", PyStr image_tag)]])%list
      end
  end.

Definition lambda_handler (event context : pyval) : M pyval :=
  log INFO "Lambda function started." ;;
  repo_uri <- ensure_repository_exists ;;
  log INFO ("ECR repository URI: " ++ repo_uri) ;;
  response <-
    try_except
      (request (list_objects_v2 (S3_BUCKET_NAME env) (S3_PREFIX_FILTER env)))
      is_ClientError
      (fun e =>
         log ERROR ("Error reading S3 bucket: " ++ str_exn e) ;;
         raise e) ;;
  match Contents response with
  | None =>
      log INFO "No objects to process." ;;
      ret (PyDict [("status", PyStr "no_objects")])
  | Some contents =>
      results <- process_objects contents [] ;;
      log INFO ("Backup completed for " ++ str_nat (List.length results)
                ++ " objects.") ;;
      ret (PyDict [("status", PyStr "success"); ("items", PyList results)])
  end.

End Handler.

(** ** A reader for the JSON subset of the manifest

    Objects, arrays, strings without escape sequences and non-negative
    integers, with JSON's white space. *)

Module Json.

Inductive token : Type :=
| TLBrace | TRBrace | TLBracket | TRBracket | TColon | TComma
| TString (s : string)
| TNumber (n : nat).

Inductive value : Type :=
| JNum (n : nat)
| JStr (s : string)
| JArr (elements : list value)
| JObj (members : list (string * value)).

Inductive lex_state : Type :=
| Idle
| InString (acc : string)
| InNumber (digits : string).

Definition is_digit (c : ascii) : bool :=
  let n := nat_of_ascii c in (48 <=? n)%nat && (n <=? 57)%nat.

Definition is_space (c : ascii) : bool :=
  let n := nat_of_ascii c in
  (n =? 32)%nat || (n =? 10)%nat || (n =? 13)%nat || (n =? 9)%nat.

(** A character that ends or escapes a string, or may not occur in one. *)
Definition is_plain (c : ascii) : bool :=
  let n := nat_of_ascii c in
  (32 <=? n)%nat && negb (n =? 34)%nat && negb (n =? 92)%nat.

Definition number_of (digits : string) : option nat :=
  match NilEmpty.uint_of_string digits with
  | Some u => Some (Nat.of_uint u)
  | None => None
  end.

(** The first character of a token, outside strings and numbers. *)
Definition start (c : ascii) : option (option token * lex_state) :=
  let n := nat_of_ascii c in
  if is_space c then Some (None, Idle)
  else if (n =? 123)%nat then Some (Some TLBrace, Idle)
  else if (n =? 125)%nat then Some (Some TRBrace, Idle)
  else if (n =? 91)%nat then Some (Some TLBracket, Idle)
  else if (n =? 93)%nat then Some (Some TRBracket, Idle)
  else if (n =? 58)%nat then Some (Some TColon, Idle)
  else if (n =? 44)%nat then Some (Some TComma, Idle)
  else if (n =? 34)%nat then Some (None, InString EmptyString)
  else if is_digit c then Some (None, InNumber (String c EmptyString))
  else None.

Definition emit (tok : option token) (rest : option (list token))
    : option (list token) :=
  match tok, rest with
  | Some tk, Some ts => Some (tk :: ts)
  | None, Some ts => Some ts
  | _, None => None
  end.

Definition emit_number (digits : string) (rest : option (list token))
    : option (list token) :=
  match number_of digits with
  | Some n => emit (Some (TNumber n)) rest
  | None => None
  end.

Fixpoint lex (st : lex_state) (s : string) : option (list token) :=
  match s with
  | EmptyString =>
      match st with
      | Idle => Some []
      | InString _ => None
      | InNumber ds => emit_number ds (Some [])
      end
  | String c rest =>
      match st with
      | InString acc =>
          if (nat_of_ascii c =? 34)%nat then emit (Some (TString acc)) (lex Idle rest)
          else if is_plain c then lex (InString (acc ++ String c EmptyString)) rest
          else None
      | InNumber ds =>
          if is_digit c then lex (InNumber (ds ++ String c EmptyString)) rest
          else match start c with
               | Some (tok, st') => emit_number ds (emit tok (lex st' rest))
               | None => None
               end
      | Idle =>
          match start c with
          | Some (tok, st') => emit tok (lex st' rest)
          | None => None
          end
      end
  end.

(** The reader run over the first part of a text: the tokens it has
    finished and the state it is left in. *)
Fixpoint scan (st : lex_state) (s : string) : option (list token * lex_state) :=
  let push (tok : option token) (r : option (list token * lex_state)) :=
    match tok, r with
    | Some tk, Some (ts, st') => Some (tk :: ts, st')
    | None, Some r' => Some r'
    | _, None => None
    end in
  match s with
  | EmptyString => Some ([], st)
  | String c rest =>
      match st with
      | InString acc =>
          if (nat_of_ascii c =? 34)%nat then push (Some (TString acc)) (scan Idle rest)
          else if is_plain c then scan (InString (acc ++ String c EmptyString)) rest
          else None
      | InNumber ds =>
          if is_digit c then scan (InNumber (ds ++ String c EmptyString)) rest
          else match start c, number_of ds with
               | Some (tok, st'), Some n =>
                   push (Some (TNumber n)) (push tok (scan st' rest))
               | _, _ => None
               end
      | Idle =>
          match start c with
          | Some (tok, st') => push tok (scan st' rest)
          | None => None
          end
      end
  end.

(** The tokens of a text whose first part gave [r]. *)
Definition resume (r : option (list token * lex_state)) (rest : string)
    : option (list token) :=
  match r with
  | Some (ts, st) =>
      match lex st rest with
      | Some ts' => Some (ts ++ ts')%list
      | None => None
      end
  | None => None
  end.

Fixpoint parse_value (fuel : nat) (ts : list token) : option (value * list token) :=
  match fuel with
  | O => None
  | S fuel' =>
      match ts with
      | TNumber n :: r => Some (JNum n, r)
      | TString s :: r => Some (JStr s, r)
      | TLBracket :: TRBracket :: r => Some (JArr [], r)
      | TLBracket :: r =>
          match parse_elements fuel' r with
          | Some (l, r') => Some (JArr l, r')
          | None => None
          end
      | TLBrace :: TRBrace :: r => Some (JObj [], r)
      | TLBrace :: r =>
          match parse_members fuel' r with
          | Some (l, r') => Some (JObj l, r')
          | None => None
          end
      | _ => None
      end
  end
with parse_elements (fuel : nat) (ts : list token)
    : option (list value * list token) :=
  match fuel with
  | O => None
  | S fuel' =>
      match parse_value fuel' ts with
      | Some (v, TComma :: r) =>
          match parse_elements fuel' r with
          | Some (l, r') => Some (v :: l, r')
          | None => None
          end
      | Some (v, TRBracket :: r) => Some ([v], r)
      | _ => None
      end
  end
with parse_members (fuel : nat) (ts : list token)
    : option (list (string * value) * list token) :=
  match fuel with
  | O => None
  | S fuel' =>
      match ts with
      | TString k :: TColon :: r =>
          match parse_value fuel' r with
          | Some (v, TComma :: r') =>
              match parse_members fuel' r' with
              | Some (l, r'') => Some ((k, v) :: l, r'')
              | None => None
              end
          | Some (v, TRBrace :: r') => Some ([(k, v)], r')
          | _ => None
          end
      | _ => None
      end
  end.

(** The whole text is one value; a text of n tokens nests less than n deep. *)
Definition loads (s : string) : option value :=
  match lex Idle s with
  | Some ts =>
      match parse_value (S (List.length ts)) ts with
      | Some (v, []) => Some v
      | _ => None
      end
  | None => None
  end.

End Json.

(** What the manifest of a layer of digest [layer_digest] and [size] bytes
    has to state. *)
Definition manifest_document (layer_digest : string) (size : nat) : Json.value :=
  Json.JObj
    [ ("schemaVersion", Json.JNum 2);
      ("mediaType", Json.JStr "application/vnd.oci.image.manifest.v1+json");
      ("config",
        Json.JObj [ ("mediaType", Json.JStr "application/vnd.oci.image.config.v1+json");
                    ("digest", Json.JStr layer_digest);
                    ("size", Json.JNum size) ]);
      ("layers",
        Json.JArr
          [ Json.JObj [ ("mediaType", Json.JStr "application/vnd.oci.image.layer.v1.tar");
                        ("digest", Json.JStr layer_digest);
                        ("size", Json.JNum size) ] ]) ].

(** The same document as the reader's tokens. *)
Definition manifest_tokens (layer_digest : string) (size : nat) : list Json.token :=
  let descriptor (media_type : string) :=
    [ Json.TLBrace;
      Json.TString "mediaType"; Json.TColon; Json.TString media_type; Json.TComma;
      Json.TString "digest"; Json.TColon; Json.TString layer_digest; Json.TComma;
      Json.TString "size"; Json.TColon; Json.TNumber size;
      Json.TRBrace ]%list in
  ([ Json.TLBrace;
     Json.TString "schemaVersion"; Json.TColon; Json.TNumber 2; Json.TComma;
     Json.TString "mediaType"; Json.TColon;
     Json.TString "application/vnd.oci.image.manifest.v1+json"; Json.TComma;
     Json.TString "config"; Json.TColon ]
   ++ descriptor "application/vnd.oci.image.config.v1+json"
   ++ [ Json.TComma; Json.TString "layers"; Json.TColon; Json.TLBracket ]
   ++ descriptor "application/vnd.oci.image.layer.v1.tar"
   ++ [ Json.TRBracket; Json.TRBrace ])%list.

(** ** A reference instance of the library interface, and sample services

    The decoder is the strict one of RFC 4648 and the text decoder accepts
    ASCII; both agree with CPython on the canonical base-64 text of an ASCII
    token, which is all the samples use.  The [repr] of the failure list is
    CPython's for dicts of ASCII text. *)

Module Reference.

Definition b64_value (c : ascii) : option N :=
  let n := N_of_ascii c in
  if ((65 <=? n) && (n <=? 90))%N then Some (n - 65)%N
  else if ((97 <=? n) && (n <=? 122))%N then Some (n - 71)%N
  else if ((48 <=? n) && (n <=? 57))%N then Some (n + 4)%N
  else if (n =? 43)%N then Some 62%N
  else if (n =? 47)%N then Some 63%N
  else None.

Definition byte_of (n : N) : byte :=
  match Byte.of_N (n mod 256) with
  | Some b => b
  | None => x00
  end.

Definition is_pad (c : ascii) : bool := (N_of_ascii c =? 61)%N.

Fixpoint b64_quads (s : string) : option (list byte) :=
  match s with
  | EmptyString => Some []
  | String c0 (String c1 (String c2 (String c3 rest))) =>
      match b64_value c0, b64_value c1 with
      | Some v0, Some v1 =>
          let b0 := byte_of (v0 * 4 + v1 / 16) in
          if is_pad c2 then
            match is_pad c3, rest with
            | true, EmptyString => Some [b0]
            | _, _ => None
            end
          else
            match b64_value c2 with
            | Some v2 =>
                let b1 := byte_of (v1 * 16 + v2 / 4) in
                if is_pad c3 then
                  match rest with
                  | EmptyString => Some [b0; b1]
                  | _ => None
                  end
                else
                  match b64_value c3, b64_quads rest with
                  | Some v3, Some bs =>
                      Some (b0 :: b1 :: byte_of (v2 * 64 + v3) :: bs)
                  | _, _ => None
                  end
            | None => None
            end
      | _, _ => None
      end
  | _ => None
  end.

Definition strict_b64decode (s : string) : reply (list byte) :=
  match b64_quads s with
  | Some bs => Reply bs
  | None => Fault (OtherException "binascii.Error" "Incorrect padding")
  end.

Definition ascii_decode (bs : list byte) : reply string :=
  if forallb (fun b => (Byte.to_N b <? 128)%N) bs
  then Reply (string_of_list_ascii (map ascii_of_byte bs))
  else Fault (OtherException "UnicodeDecodeError" "invalid start byte").

(** [repr] of a text: in single quotes, or in double quotes when the text
    holds a single quote and no double quote; the backslash, the quote in
    use, tab, line feed and carriage return are escaped, the other characters
    outside the printable ASCII range are written [\xNN]. *)
Definition has_char (c : ascii) (s : string) : bool :=
  existsb (Ascii.eqb c) (list_ascii_of_string s).

Definition hex_of (n : N) : ascii :=
  ascii_of_N (if (n <? 10)%N then 48 + n else 87 + n).

Definition repr_char (quote c : ascii) : string :=
  let n := N_of_ascii c in
  let backslash := String (ascii_of_N 92) EmptyString in
  if (n =? 92)%N then backslash ++ backslash
  else if Ascii.eqb c quote then backslash ++ String c EmptyString
  else if (n =? 9)%N then backslash ++ "t"
  else if (n =? 10)%N then backslash ++ "n"
  else if (n =? 13)%N then backslash ++ "r"
  else if ((n <? 32) || (126 <? n))%N
       then backslash ++ "x"
            ++ String (hex_of (n / 16)) (String (hex_of (n mod 16)) EmptyString)
  else String c EmptyString.

Definition repr_str (s : string) : string :=
  let single := ascii_of_N 39 in
  let double := ascii_of_N 34 in
  let quote := if has_char single s && negb (has_char double s)
               then double else single in
  String quote EmptyString
  ++ concat "" (map (repr_char quote) (list_ascii_of_string s))
  ++ String quote EmptyString.

(** [repr] of the dict [{"imageDigest": d}]. *)
Definition repr_image_identifier (i : image_identifier) : string :=
  match i with
  | ImageId d => "{'imageDigest': " ++ repr_str d ++ "}"
  end.

(** [repr] of a failure of [batch_delete_image], a dict with the keys
    [imageId], [failureCode] and [failureReason] in the order of the
    response. *)
Definition repr_image_failure (f : image_failure) : string :=
  "{'imageId': " ++ repr_image_identifier (failureId f)
  ++ ", 'failureCode': " ++ repr_str (failureCode f)
  ++ ", 'failureReason': " ++ repr_str (failureReason f) ++ "}".

(** [repr] of the list of failures, as the f-string of the warning has it. *)
Definition repr_failure_list (l : list image_failure) : string :=
  "[" ++ concat ", " (map repr_image_failure l) ++ "]".

Definition lib : pylib :=
  {| b64decode := strict_b64decode;
     bytes_decode := ascii_decode;
     repr_failures := repr_failure_list |}.

Definition env : environ :=
  {| S3_BUCKET_NAME := Some "backup-source";
     S3_PREFIX_FILTER := "";
     ECR_REPO_NAME := Some "s3-backup" |}.

(** Services whose answers do not depend on the history. *)
Record scenario : Type := {
  sc_repositories : reply describe_repositories_response;
  sc_created : reply create_repository_response;
  sc_token : reply get_authorization_token_response;
  sc_listing : reply list_objects_v2_response;
  sc_fetch : string -> reply (list byte);
  sc_untagged : reply describe_images_response;
  sc_deleted : reply batch_delete_image_response
}.

Definition services (sc : scenario) : world :=
  fun _ c =>
    match c as c0 return reply (response c0) with
    | describe_repositories _ => sc_repositories sc
    | create_repository _ => sc_created sc
    | get_authorization_token => sc_token sc
    | initiate_layer_upload _ => Reply {| uploadId := "upload-1" |}
    | upload_layer_part _ _ _ _ _ => Reply tt
    | complete_layer_upload _ _ _ => Reply tt
    | put_image _ _ _ => Reply tt
    | describe_images _ _ => sc_untagged sc
    | batch_delete_image _ _ => sc_deleted sc
    | list_objects_v2 _ _ => sc_listing sc
    | get_object _ k => sc_fetch sc k
    end.

Definition uri : string := "123456789012.dkr.ecr.eu-west-1.amazonaws.com/s3-backup".

Definition token_reply (token endpoint : string)
    : reply get_authorization_token_response :=
  Reply {| authorizationData :=
             [ {| authorizationToken := token; proxyEndpoint := endpoint |} ] |}.

Definition listing (keys : list string) : reply list_objects_v2_response :=
  Reply {| Contents := Some (map (fun k => {| Key := k |}) keys) |}.

(** The repository exists, the token is the base-64 text of [AWS:secret],
    no image is untagged, every object holds [hello]. *)
Definition base : scenario :=
  {| sc_repositories := Reply {| repositories := [ {| repositoryUri := uri |} ] |};
     sc_created := Reply {| repository := {| repositoryUri := uri |} |};
     sc_token := token_reply "QVdTOnNlY3JldA==" "https://registry.example";
     sc_listing := listing ["file1.txt"];
     sc_fetch := fun _ => Reply (bytes_of_string "hello");
     sc_untagged := Reply {| imageDetails := Some [] |};
     sc_deleted := Reply {| imageIds := Some []; failures := Some [] |} |}.

Definition with_token (r : reply get_authorization_token_response)
    (sc : scenario) : scenario :=
  {| sc_repositories := sc_repositories sc; sc_created := sc_created sc;
     sc_token := r; sc_listing := sc_listing sc; sc_fetch := sc_fetch sc;
     sc_untagged := sc_untagged sc; sc_deleted := sc_deleted sc |}.

Definition with_objects (l : reply list_objects_v2_response)
    (fetch : string -> reply (list byte)) (sc : scenario) : scenario :=
  {| sc_repositories := sc_repositories sc; sc_created := sc_created sc;
     sc_token := sc_token sc; sc_listing := l; sc_fetch := fetch;
     sc_untagged := sc_untagged sc; sc_deleted := sc_deleted sc |}.

Definition with_repositories (r : reply describe_repositories_response)
    (sc : scenario) : scenario :=
  {| sc_repositories := r; sc_created := sc_created sc;
     sc_token := sc_token sc; sc_listing := sc_listing sc; sc_fetch := sc_fetch sc;
     sc_untagged := sc_untagged sc; sc_deleted := sc_deleted sc |}.

Definition with_images (u : reply describe_images_response)
    (d : reply batch_delete_image_response) (sc : scenario) : scenario :=
  {| sc_repositories := sc_repositories sc; sc_created := sc_created sc;
     sc_token := sc_token sc; sc_listing := sc_listing sc; sc_fetch := sc_fetch sc;
     sc_untagged := u; sc_deleted := d |}.

(** Three objects, the second of which cannot be fetched. *)
Definition fetch_abc (failure : exn) (k : string) : reply (list byte) :=
  if String.eqb k "B" then Fault failure else Reply (bytes_of_string k).

Definition three_objects (failure : exn) : scenario :=
  with_objects (listing ["A"; "B"; "C"]) (fetch_abc failure) base.

Definition access_denied : exn :=
  ClientError "AccessDenied"
    "An error occurred (AccessDenied) when calling the GetObject operation: Access Denied".

Definition connection_lost : exn :=
  OtherException "EndpointConnectionError"
    "Could not connect to the endpoint URL".

(** What the client raises, before any request is sent, for a part that
    ends before it starts. *)
Definition invalid_range : exn :=
  OtherException "ParamValidationError"
    ("Parameter validation failed:" ++ nl
     ++ "Invalid value for parameter partLastByte, value: -1, valid min value: 0").

End Reference.

(** Services of which some calls are out of order. *)
Module Outage.

(** As [w], but every call of the kind [f] raises [e]. *)
Definition refusing (f : call -> bool) (e : exn) (w : world) : world :=
  fun h c => if f c then Fault e else w h c.

(** The transfer of a part without bytes, whose last byte is before 0. *)
Definition empty_part (c : call) : bool :=
  match c with
  | upload_layer_part _ _ _ partLastByte _ => (partLastByte <? 0)%Z
  | _ => false
  end.

End Outage.

(** ** Observations on a run *)

Local Open Scope list_scope.

(** The client calls of a trace, in order. *)
Fixpoint requests_of (t : list event) : list call :=
  match t with
  | [] => []
  | Request c :: t' => c :: requests_of t'
  | Log _ _ :: t' => requests_of t'
  end.

(** A computation only adds events, and the events it adds all satisfy [P]. *)
Definition emits {A : Type} (P : event -> Prop) (m : M A) : Prop :=
  forall t, exists es, snd (m t) = (t ++ es) /\ Forall P es.

(** The authorization data decodes into a user name and a password. *)
Definition token_decodes (lib : pylib) (auth : get_authorization_token_response)
    : Prop :=
  exists d ds raw text username password,
    authorizationData auth = d :: ds /\
    b64decode lib (authorizationToken d) = Reply raw /\
    bytes_decode lib raw = Reply text /\
    split ":" text = [username; password].

(** [hashlib.sha256(file_bytes).hexdigest()[:12]] *)
Definition tag_of (file_bytes : list byte) : string :=
  substring 0 12 (SHA256.hexdigest file_bytes).

(** ["sha256:" + hashlib.sha256(file_bytes).hexdigest()] *)
Definition digest_of (file_bytes : list byte) : string :=
  ("sha256:" ++ SHA256.hexdigest file_bytes)%string.

Definition is_hex (c : ascii) : bool :=
  let n := nat_of_ascii c in
  ((48 <=? n)%nat && (n <=? 57)%nat) || ((97 <=? n)%nat && (n <=? 102)%nat).

(** Every character of [s] is an ordinary character of a JSON string. *)
Definition plain (s : string) : bool :=
  forallb Json.is_plain (list_ascii_of_string s).

(** Every character of [s] is a decimal digit. *)
Definition digits (s : string) : bool :=
  forallb Json.is_digit (list_ascii_of_string s).

(** The two calls of the sweep. *)
Definition sweep_request (c : call) : bool :=
  match c with
  | describe_images _ _ | batch_delete_image _ _ => true
  | _ => false
  end.

Definition no_sweep (e : event) : Prop :=
  match e with
  | Request c => sweep_request c = false
  | Log _ _ => True
  end.

(** The calls of repository provisioning. *)
Definition provisioning (env : environ) (e : event) : Prop :=
  match e with
  | Request c =>
      c = describe_repositories [ECR_REPO_NAME env] \/
      c = create_repository (ECR_REPO_NAME env)
  | Log _ _ => True
  end.

(** What a publish of [file_bytes] may submit: a manifest that reads as the
    document of the layer's digest and size, and a completion that declares
    that digest alone. *)
Definition well_formed_submission (file_bytes : list byte) (e : event) : Prop :=
  match e with
  | Request (put_image _ manifest _) =>
      Json.loads manifest
      = Some (manifest_document (digest_of file_bytes) (List.length file_bytes))
  | Request (complete_layer_upload _ _ declared) =>
      declared = [digest_of file_bytes]
  | _ => True
  end.

(** The report entry of an object, [{"object_key": key, "image_tag": tag}]. *)
Definition report_item (key tag : string) : pyval :=
  PyDict [("object_key", PyStr key); ("image_tag", PyStr tag)]%string.

(** The calls of one publish of [file_bytes], in the order of the code;
    [upload_id] is the identifier that [initiate_layer_upload] returned. *)
Definition publish_protocol (env : environ) (upload_id : string)
    (file_bytes : list byte) : list call :=
  [ get_authorization_token;
    initiate_layer_upload (ECR_REPO_NAME env);
    upload_layer_part (ECR_REPO_NAME env) upload_id 0
      (Z.of_nat (List.length file_bytes) - 1) file_bytes;
    complete_layer_upload (ECR_REPO_NAME env) upload_id [digest_of file_bytes];
    put_image (ECR_REPO_NAME env)
      (image_manifest (digest_of file_bytes) (List.length file_bytes))
      (tag_of file_bytes) ].

(** Kinds of calls, to count them in a trace. *)
Definition is_get_object (c : call) : bool :=
  match c with get_object _ _ => true | _ => false end.

Definition is_put_image (c : call) : bool :=
  match c with put_image _ _ _ => true | _ => false end.

Definition is_token_request (c : call) : bool :=
  match c with get_authorization_token => true | _ => false end.

Definition is_listing (c : call) : bool :=
  match c with list_objects_v2 _ _ => true | _ => false end.

Definition is_upload_layer_part (c : call) : bool :=
  match c with upload_layer_part _ _ _ _ _ => true | _ => false end.

(** No event of the kind [f]. *)
Definition without (f : call -> bool) (e : event) : Prop :=
  match e with
  | Request c => f c = false
  | Log _ _ => True
  end.

(** The number of occurrences of a character in a string. *)
Fixpoint count_char (c : ascii) (s : string) : nat :=
  match s with
  | EmptyString => O
  | String a rest => (if Ascii.eqb a c then 1 else 0) + count_char c rest
  end.

(** [sep.join(l)] for a one-character separator. *)
Fixpoint join (sep : ascii) (l : list string) : string :=
  match l with
  | [] => EmptyString
  | [s] => s
  | s :: rest => (s ++ String sep (join sep rest))%string
  end.


(** The call [c], made after the history [h], is answered (it does not
    raise). *)
Definition answered (aws : world) (h : list event) (c : call) : bool :=
  match aws h c with
  | Reply _ => true
  | Fault _ => false
  end.

(** The services answer the loop over [contents], entered after the history
    [t], as [fetched] says, object by object and each at the history at which
    the loop reaches it: the fetch of an object gives bytes, and the publish
    of these bytes returns; or the fetch raises a [ClientError]. *)
Fixpoint served (lib : pylib) (env : environ) (aws : world)
    (contents : list s3_object) (fetched : list (reply (list byte)))
    (t : list event) : Prop :=
  match contents, fetched with
  | [], [] => True
  | obj :: rest, r :: rs =>
      let processing := Log INFO ("Processing S3 object: " ++ Key obj) in
      let fetching := get_object (S3_BUCKET_NAME env) (Key obj) in
      aws (t ++ [processing]) fetching = r /\
      match r with
      | Reply file_bytes =>
          exists tag t',
            upload_to_ecr lib env aws (Key obj) file_bytes
              (t ++ [processing; Request fetching]) = (Returned tag, t') /\
            served lib env aws rest rs t'
      | Fault e =>
          is_ClientError e = true /\
          served lib env aws rest rs
            (t ++ [ processing; Request fetching;
                    Log ERROR ("Error downloading S3 object '" ++ Key obj ++ "': "
                               ++ str_exn e) ])
      end
  | _, _ => False
  end.

(** The report of a listing whose objects were fetched as [fetched] says:
    one entry per object that was fetched, in listing order, none for an
    object whose fetch failed. *)
Fixpoint reported (contents : list s3_object) (fetched : list (reply (list byte)))
    : list pyval :=
  match contents, fetched with
  | obj :: rest, Reply file_bytes :: rs =>
      report_item (Key obj) (tag_of file_bytes) :: reported rest rs
  | _ :: rest, Fault _ :: rs => reported rest rs
  | _, _ => []
  end.



(** ** Lemmas on the monad *)

Lemma requests_of_app (t u : list event) :
  requests_of (t ++ u) = (requests_of t ++ requests_of u).
Proof.
  induction t as [|[c|l m] t IH]; simpl; [reflexivity | now rewrite IH | exact IH].
Qed.

Section Emits.

Variable P : event -> Prop.

Lemma emits_ret {A : Type} (a : A) : emits P (ret a).
Proof. intros t; exists []; simpl; now rewrite app_nil_r. Qed.

Lemma emits_raise {A : Type} (e : exn) : emits P (@raise A e).
Proof. intros t; exists []; simpl; now rewrite app_nil_r. Qed.

Lemma emits_lift {A : Type} (r : reply A) : emits P (lift r).
Proof. destruct r; [apply emits_ret | apply emits_raise]. Qed.

Lemma emits_index0 {A : Type} (l : list A) : emits P (index0 l).
Proof. destruct l; [apply emits_raise | apply emits_ret]. Qed.

Lemma emits_unpack2 (l : list string) : emits P (unpack2 l).
Proof.
  destruct l as [|a [|b [|c l]]]; simpl;
    first [apply emits_ret | apply emits_raise].
Qed.

Lemma emits_log (level : log_level) (msg : string) :
  P (Log level msg) -> emits P (log level msg).
Proof. intros H t; exists [Log level msg]; simpl; auto. Qed.

Lemma emits_request (aws : world) (c : call) :
  P (Request c) -> emits P (request aws c).
Proof.
  intros H t; exists [Request c]; unfold request.
  destruct (aws t c); simpl; auto.
Qed.

Lemma emits_bind {A B : Type} (m : M A) (k : A -> M B) :
  emits P m -> (forall a, emits P (k a)) -> emits P (bind m k).
Proof.
  intros Hm Hk t. unfold bind.
  destruct (Hm t) as [es [E F]].
  destruct (m t) as [[a|e] t']; simpl in E; subst t'.
  - destruct (Hk a (t ++ es)) as [es' [E' F']].
    exists (es ++ es'). rewrite E', app_assoc. split; [reflexivity|].
    apply Forall_app; auto.
  - exists es; auto.
Qed.

Lemma emits_try_except {A : Type} (body : M A) (cls : exn -> bool)
    (handler : exn -> M A) :
  emits P body -> (forall e, emits P (handler e)) ->
  emits P (try_except body cls handler).
Proof.
  intros Hb Hh t. unfold try_except.
  destruct (Hb t) as [es [E F]].
  destruct (body t) as [[a|e] t']; simpl in E; subst t'.
  - exists es; auto.
  - destruct (cls e).
    + destruct (Hh e (t ++ es)) as [es' [E' F']].
      exists (es ++ es'). rewrite E', app_assoc. split; [reflexivity|].
      apply Forall_app; auto.
    + exists es; auto.
Qed.

End Emits.

Lemma emits_weaken {A : Type} (P Q : event -> Prop) (m : M A) :
  (forall e, P e -> Q e) -> emits P m -> emits Q m.
Proof.
  intros H Hm t. destruct (Hm t) as [es [E F]].
  exists es; split; [exact E | eapply Forall_impl; eauto].
Qed.

(** Breaks a computation into its calls and log records. *)
Ltac emits_step :=
  match goal with
  | |- emits _ (bind _ _) => apply emits_bind; [| intros ?]
  | |- emits _ (try_except _ _ _) => apply emits_try_except; [| intros ?]
  | |- emits _ (ret _) => apply emits_ret
  | |- emits _ (raise _) => apply emits_raise
  | |- emits _ (lift _) => apply emits_lift
  | |- emits _ (index0 _) => apply emits_index0
  | |- emits _ (unpack2 _) => apply emits_unpack2
  | |- emits _ (log _ _) => apply emits_log
  | |- emits _ (request _ _) => apply emits_request
  | |- emits _ (match ?x with _ => _ end) => destruct x
  | |- emits _ (let '(_, _) := ?x in _) => destruct x
  end.

(** Appended traces, written as one list. *)
Ltac flatten_trace :=
  repeat rewrite <- app_assoc in *; cbn [Datatypes.app] in *.

(** ** The publisher *)

Section Publisher.

Variable lib : pylib.
Variable env : environ.
Variable aws : world.

(** What a publish that returns has done: the trace it leaves is the one
    protocol sequence, and the tag it returns is the truncated digest. *)
Lemma upload_to_ecr_returned (object_key : string) (file_bytes : list byte)
    (t t' : list event) (tag : string) :
  upload_to_ecr lib env aws object_key file_bytes t = (Returned tag, t') ->
  exists auth session,
    let started := Log INFO ("Uploading S3 object '" ++ object_key ++ "' to ECR...") in
    aws (t ++ [started]) get_authorization_token = Reply auth /\
    token_decodes lib auth /\
    aws (t ++ [started; Request get_authorization_token])
        (initiate_layer_upload (ECR_REPO_NAME env)) = Reply session /\
    tag = tag_of file_bytes /\
    t' = (t ++ [ started;
                Request get_authorization_token;
                Request (initiate_layer_upload (ECR_REPO_NAME env));
                Request (upload_layer_part (ECR_REPO_NAME env) (uploadId session) 0
                           (Z.of_nat (List.length file_bytes) - 1) file_bytes);
                Request (complete_layer_upload (ECR_REPO_NAME env) (uploadId session)
                           [digest_of file_bytes]);
                Request (put_image (ECR_REPO_NAME env)
                           (image_manifest (digest_of file_bytes)
                              (List.length file_bytes))
                           (tag_of file_bytes));
                Log INFO ("Uploaded as image tag: " ++ tag_of file_bytes) ]).
Proof.
  unfold upload_to_ecr, bind, log, request.
  destruct (aws _ get_authorization_token) as [auth|e] eqn:Hauth; [|discriminate].
  unfold index0 at 1.
  destruct (authorizationData auth) as [|d ds] eqn:Hd; [discriminate|].
  unfold ret at 1, lift at 1.
  destruct (b64decode lib (authorizationToken d)) as [raw|e] eqn:Hraw; [|discriminate].
  unfold ret at 1, lift at 1.
  destruct (bytes_decode lib raw) as [text|e] eqn:Htext; [|discriminate].
  unfold ret at 1.
  destruct (split ":" text) as [|u [|p [|x l]]] eqn:Hsplit; try discriminate.
  unfold unpack2, ret at 1, index0, ret at 1, try_except.
  destruct (aws _ (initiate_layer_upload _)) as [session|e] eqn:Hinit;
    [|destruct (is_ClientError e); discriminate].
  destruct (aws _ (upload_layer_part _ _ _ _ _)) as [[]|e];
    [|destruct (is_ClientError e); discriminate].
  destruct (aws _ (complete_layer_upload _ _ _)) as [[]|e];
    [|destruct (is_ClientError e); discriminate].
  destruct (aws _ (put_image _ _ _)) as [[]|e];
    [|destruct (is_ClientError e); discriminate].
  unfold ret. intros H; injection H as <- <-.
  flatten_trace.
  exists auth, session. repeat split; try assumption.
  exists d, ds, raw, text, u, p. auto.
Qed.

(** Every event of a publish belongs to the publish protocol, whatever
    the services answer. *)
Lemma upload_to_ecr_emits (P : event -> Prop) (object_key : string)
    (file_bytes : list byte) :
  (forall level msg, P (Log level msg)) ->
  P (Request get_authorization_token) ->
  (forall c, (exists u, c = initiate_layer_upload u) \/
             (exists u i a b l, c = upload_layer_part u i a b l) \/
             (exists u i, c = complete_layer_upload u i [digest_of file_bytes]) \/
             (exists u tag,
                c = put_image u (image_manifest (digest_of file_bytes)
                                   (List.length file_bytes)) tag) ->
             P (Request c)) ->
  emits P (upload_to_ecr lib env aws object_key file_bytes).
Proof.
  intros Hlog Hauth Hreq. unfold upload_to_ecr.
  repeat emits_step; auto; apply Hreq; eauto 10.
Qed.

End Publisher.

(** ** Strings, digests and the manifest text *)

Section Strings.

Local Open Scope string_scope.

Lemma append_empty_r (s : string) : s ++ "" = s.
Proof. induction s as [|c s IH]; simpl; [reflexivity | now rewrite IH]. Qed.

Lemma append_step (s : string) (c : ascii) (u : string) :
  (s ++ String c "") ++ u = s ++ String c u.
Proof. induction s as [|a s IH]; simpl; [reflexivity | now rewrite IH]. Qed.

Lemma plain_app (s u : string) : plain s = true -> plain u = true -> plain (s ++ u) = true.
Proof.
  unfold plain. induction s as [|c s IH]; simpl; [auto|].
  intros H Hu. apply andb_true_iff in H as [Hc Hs].
  rewrite Hc; simpl; auto.
Qed.

Lemma is_plain_not_quote (c : ascii) :
  Json.is_plain c = true -> (nat_of_ascii c =? 34)%nat = false.
Proof.
  unfold Json.is_plain. intros H.
  apply andb_true_iff in H as [H _]. apply andb_true_iff in H as [_ H].
  now apply negb_true_iff in H.
Qed.

Lemma lex_plain (s acc rest : string) :
  plain s = true ->
  Json.lex (Json.InString acc) (s ++ String (ascii_of_nat 34) rest)
  = Json.emit (Some (Json.TString (acc ++ s))) (Json.lex Json.Idle rest).
Proof.
  revert acc. unfold plain.
  induction s as [|c s IH]; intros acc H.
  - rewrite append_empty_r. reflexivity.
  - simpl in H. apply andb_true_iff in H as [Hc Hs].
    change (String c s ++ String (ascii_of_nat 34) rest)
      with (String c (s ++ String (ascii_of_nat 34) rest)).
    cbn [Json.lex]. rewrite (is_plain_not_quote c Hc), Hc.
    rewrite (IH _ Hs), append_step. reflexivity.
Qed.

Lemma lex_digits (s ds rest : string) :
  digits s = true ->
  Json.lex (Json.InNumber ds) (s ++ rest) = Json.lex (Json.InNumber (ds ++ s)) rest.
Proof.
  revert ds. unfold digits.
  induction s as [|c s IH]; intros ds H.
  - now rewrite append_empty_r.
  - simpl in H. apply andb_true_iff in H as [Hc Hs].
    change (String c s ++ rest) with (String c (s ++ rest)).
    cbn [Json.lex]. rewrite Hc, (IH _ Hs), append_step. reflexivity.
Qed.

Lemma start_digit (c : ascii) :
  Json.is_digit c = true ->
  Json.start c = Some (None, Json.InNumber (String c "")).
Proof.
  destruct c as [[] [] [] [] [] [] [] []]; intros H; try discriminate H; reflexivity.
Qed.

Lemma digits_string_of_uint (u : Decimal.uint) :
  digits (NilEmpty.string_of_uint u) = true.
Proof. unfold digits. induction u; simpl; auto. Qed.

Lemma number_of_str_nat (n : nat) : Json.number_of (str_nat n) = Some n.
Proof.
  unfold Json.number_of, str_nat.
  now rewrite NilEmpty.usu, DecimalNat.Unsigned.of_to.
Qed.

Lemma str_nat_nonempty (n : nat) : str_nat n <> "".
Proof.
  intros E. pose proof (number_of_str_nat n) as H. rewrite E in H.
  injection H as <-. discriminate E.
Qed.

(** A length in decimal, followed by a character that starts something else. *)
Lemma lex_str_nat (n : nat) (c : ascii) (rest : string)
    (tok : option Json.token) (st : Json.lex_state) :
  Json.is_digit c = false ->
  Json.start c = Some (tok, st) ->
  Json.lex Json.Idle (str_nat n ++ String c rest)
  = Json.emit (Some (Json.TNumber n)) (Json.emit tok (Json.lex st rest)).
Proof.
  intros Hc Hstart.
  pose proof (number_of_str_nat n) as Hn.
  pose proof (digits_string_of_uint (Nat.to_uint n)) as Hd.
  fold (str_nat n) in Hd.
  destruct (str_nat n) as [|a s] eqn:E; [now apply str_nat_nonempty in E|].
  unfold digits in Hd. simpl in Hd. apply andb_true_iff in Hd as [Ha Hs].
  change (String a s ++ String c rest) with (String a (s ++ String c rest)).
  cbn [Json.lex]. rewrite (start_digit a Ha).
  cbn [Json.emit]. fold (digits s) in Hs.
  assert (Json.lex (Json.InNumber (String a "")) (s ++ String c rest)
          = Json.lex (Json.InNumber (String a s)) (String c rest)) as ->
    by (rewrite (lex_digits s _ _ Hs); reflexivity).
  cbn [Json.lex]. rewrite Hc, Hstart. unfold Json.emit_number. rewrite Hn.
  destruct (Json.emit tok (Json.lex st rest)); reflexivity.
Qed.

Lemma lex_scan (a : string) (st : Json.lex_state) (b : string) :
  Json.lex st (a ++ b) = Json.resume (Json.scan st a) b.
Proof.
  revert st. induction a as [|c a IH]; intros st.
  - simpl. destruct (Json.lex st b); reflexivity.
  - change (String c a ++ b) with (String c (a ++ b)).
    cbn [Json.lex Json.scan]. destruct st as [|acc|ds].
    + destruct (Json.start c) as [[[tk|] st']|]; [| |reflexivity];
        rewrite IH; destruct (Json.scan st' a) as [[ts st'']|]; try reflexivity;
        simpl; destruct (Json.lex st'' b); reflexivity.
    + destruct (nat_of_ascii c =? 34)%nat.
      * rewrite IH. destruct (Json.scan Json.Idle a) as [[ts st'']|]; try reflexivity.
        simpl. destruct (Json.lex st'' b); reflexivity.
      * destruct (Json.is_plain c); [apply IH | reflexivity].
    + destruct (Json.is_digit c); [apply IH|].
      destruct (Json.start c) as [[tok st']|]; [|reflexivity].
      unfold Json.emit_number. destruct (Json.number_of ds) as [n|]; [|reflexivity].
      rewrite IH. destruct (Json.scan st' a) as [[ts st'']|].
      * simpl. destruct tok; simpl; destruct (Json.lex st'' b); reflexivity.
      * destruct tok; reflexivity.
Qed.

Lemma lex_resume (s : string) :
  Json.lex Json.Idle s = Json.resume (Some ([], Json.Idle)) s.
Proof. simpl. destruct (Json.lex Json.Idle s); reflexivity. Qed.

(** Reading on through a literal part of the text. *)
Lemma resume_scan (ts : list Json.token) (st : Json.lex_state) (a b : string) :
  Json.resume (Some (ts, st)) (a ++ b)
  = Json.resume
      match Json.scan st a with
      | Some (ts', st') => Some ((ts ++ ts')%list, st')
      | None => None
      end b.
Proof.
  unfold Json.resume at 1. rewrite lex_scan.
  destruct (Json.scan st a) as [[ts' st']|]; [|reflexivity].
  simpl. destruct (Json.lex st' b); [|reflexivity]. now rewrite app_assoc.
Qed.

(** Reading on through a string whose characters are not known. *)
Lemma resume_plain (ts : list Json.token) (acc s rest : string) :
  plain s = true ->
  Json.resume (Some (ts, Json.InString acc)) (s ++ dq ++ rest)
  = Json.resume (Some ((ts ++ [Json.TString (acc ++ s)])%list, Json.Idle)) rest.
Proof.
  intros H. unfold Json.resume.
  change (s ++ dq ++ rest) with (s ++ String (ascii_of_nat 34) rest).
  rewrite (lex_plain s acc rest H).
  destruct (Json.lex Json.Idle rest); simpl; [|reflexivity].
  now rewrite <- app_assoc.
Qed.

(** Reading on through a length, up to the line break after it. *)
Lemma resume_str_nat (ts : list Json.token) (n : nat) (rest : string) :
  Json.resume (Some (ts, Json.Idle)) (str_nat n ++ nl ++ rest)
  = Json.resume (Some ((ts ++ [Json.TNumber n])%list, Json.Idle)) rest.
Proof.
  unfold Json.resume.
  change (str_nat n ++ nl ++ rest) with (str_nat n ++ String (ascii_of_nat 10) rest).
  rewrite (lex_str_nat n (ascii_of_nat 10) rest None Json.Idle eq_refl eq_refl).
  destruct (Json.lex Json.Idle rest); simpl; [|reflexivity].
  now rewrite <- app_assoc.
Qed.

(** One part of the manifest text read, and the reader's state computed. *)
Ltac read_part layer_digest Hd :=
  lazymatch goal with
  | |- Json.resume _ (layer_digest ++ dq ++ _)%string = _ =>
      rewrite (resume_plain _ _ layer_digest _ Hd)
  | |- Json.resume _ (str_nat _ ++ nl ++ _)%string = _ =>
      rewrite resume_str_nat
  | |- Json.resume (Some (?ts, ?st)) (?a ++ ?b)%string = _ =>
      rewrite (resume_scan ts st a b)
  end;
  lazymatch goal with
  | |- Json.resume ?r _ = _ =>
      let r' := eval vm_compute in r in change r with r'
  end.

Lemma lex_image_manifest (layer_digest : string) (size : nat) :
  plain layer_digest = true ->
  Json.lex Json.Idle (image_manifest layer_digest size)
  = Some (manifest_tokens layer_digest size).
Proof.
  intros Hd. rewrite lex_resume. unfold image_manifest.
  repeat read_part layer_digest Hd.
  vm_compute. reflexivity.
Qed.

(** The manifest text reads as the document it is meant to be. *)
Lemma loads_image_manifest (layer_digest : string) (size : nat) :
  plain layer_digest = true ->
  Json.loads (image_manifest layer_digest size)
  = Some (manifest_document layer_digest size).
Proof.
  intros Hd. unfold Json.loads. rewrite (lex_image_manifest _ _ Hd).
  reflexivity.
Qed.

(** *** The digest is 64 hexadecimal characters *)

Lemma hex_digit_cases (d : Z) :
  (0 <= d < 16)%Z ->
  is_hex (SHA256.hex_digit d) = true /\ Json.is_plain (SHA256.hex_digit d) = true.
Proof.
  intros H.
  assert (d = 0 \/ d = 1 \/ d = 2 \/ d = 3 \/ d = 4 \/ d = 5 \/ d = 6 \/ d = 7 \/
          d = 8 \/ d = 9 \/ d = 10 \/ d = 11 \/ d = 12 \/ d = 13 \/ d = 14 \/
          d = 15)%Z as C by lia.
  repeat (destruct C as [->|C]; [split; reflexivity|]).
  subst d; split; reflexivity.
Qed.

Lemma nibble_hex (w i : Z) : is_hex (SHA256.nibble w i) = true.
Proof. apply hex_digit_cases, Z.mod_pos_bound; lia. Qed.

Lemma nibble_plain (w i : Z) : Json.is_plain (SHA256.nibble w i) = true.
Proof. apply hex_digit_cases, Z.mod_pos_bound; lia. Qed.

Lemma hexdigest_length (msg : list byte) :
  String.length (SHA256.hexdigest msg) = 64%nat.
Proof. reflexivity. Qed.

Lemma hexdigest_hex (msg : list byte) :
  forallb is_hex (list_ascii_of_string (SHA256.hexdigest msg)) = true.
Proof.
  unfold SHA256.hexdigest, SHA256.hex32.
  cbn [list_ascii_of_string forallb].
  rewrite !nibble_hex. reflexivity.
Qed.

Lemma hexdigest_plain (msg : list byte) : plain (SHA256.hexdigest msg) = true.
Proof.
  unfold plain, SHA256.hexdigest, SHA256.hex32.
  cbn [list_ascii_of_string forallb].
  rewrite !nibble_plain. reflexivity.
Qed.

Lemma digest_of_plain (file_bytes : list byte) : plain (digest_of file_bytes) = true.
Proof.
  unfold digest_of. apply plain_app; [reflexivity | apply hexdigest_plain].
Qed.

Lemma tag_of_length (file_bytes : list byte) :
  String.length (tag_of file_bytes) = 12%nat.
Proof. reflexivity. Qed.

Lemma tag_of_hex (file_bytes : list byte) :
  forallb is_hex (list_ascii_of_string (tag_of file_bytes)) = true.
Proof.
  unfold tag_of, SHA256.hexdigest, SHA256.hex32.
  cbn [substring list_ascii_of_string forallb].
  rewrite !nibble_hex. reflexivity.
Qed.

(** The tag is the beginning of the digest that the completion declares. *)
Lemma digest_of_tag (file_bytes : list byte) :
  exists rest, digest_of file_bytes = "sha256:" ++ tag_of file_bytes ++ rest.
Proof.
  unfold digest_of, tag_of, SHA256.hexdigest, SHA256.hex32.
  cbn [substring append]. eexists. reflexivity.
Qed.

End Strings.

(** ** The image publisher: protocol, manifest, tag *)

(** C3.  A publish that succeeds has run the layer-upload protocol in the
    order initiate, transfer, complete (and then the manifest push): the
    transfer sends the one byte range from 0 to [len(file_bytes) - 1] under
    the upload identifier that initiate returned, and the completion declares
    ["sha256:"] followed by the same hexadecimal digest of the same bytes
    whose first twelve characters are the tag. *)
Theorem publish_runs_upload_protocol_in_order
    (lib : pylib) (env : environ) (aws : world) (object_key : string)
    (file_bytes : list byte) (t t' : list event) (tag : string) :
  upload_to_ecr lib env aws object_key file_bytes t = (Returned tag, t') ->
  exists session,
    aws (t ++ [ Log INFO ("Uploading S3 object '" ++ object_key ++ "' to ECR...");
                Request get_authorization_token ])
        (initiate_layer_upload (ECR_REPO_NAME env)) = Reply session /\
    requests_of t'
    = requests_of t ++
      [ get_authorization_token;
        initiate_layer_upload (ECR_REPO_NAME env);
        upload_layer_part (ECR_REPO_NAME env) (uploadId session) 0
          (Z.of_nat (List.length file_bytes) - 1) file_bytes;
        complete_layer_upload (ECR_REPO_NAME env) (uploadId session)
          [ ("sha256:" ++ SHA256.hexdigest file_bytes)%string ];
        put_image (ECR_REPO_NAME env)
          (image_manifest ("sha256:" ++ SHA256.hexdigest file_bytes)
             (List.length file_bytes))
          tag ] /\
    tag = substring 0 12 (SHA256.hexdigest file_bytes).
Proof.
  intros H.
  destruct (upload_to_ecr_returned _ _ _ _ _ _ _ _ H)
    as (auth & session & _ & _ & Hinit & -> & ->).
  exists session. split; [exact Hinit|]. split; [|reflexivity].
  rewrite requests_of_app. reflexivity.
Qed.

Lemma publish_runs_upload_protocol_sample :
  exists session,
    Reference.services Reference.base
      [ Log INFO "Uploading S3 object 'file1.txt' to ECR...";
        Request get_authorization_token ]
      (initiate_layer_upload (Some "s3-backup"%string)) = Reply session /\
    requests_of
      (snd (upload_to_ecr Reference.lib Reference.env
              (Reference.services Reference.base) "file1.txt"
              (bytes_of_string "hello") []))
    = [ get_authorization_token;
        initiate_layer_upload (Some "s3-backup"%string);
        upload_layer_part (Some "s3-backup"%string) (uploadId session) 0 4
          (bytes_of_string "hello");
        complete_layer_upload (Some "s3-backup"%string) (uploadId session)
          [ ("sha256:" ++ SHA256.hexdigest (bytes_of_string "hello"))%string ];
        put_image (Some "s3-backup"%string)
          (image_manifest ("sha256:" ++ SHA256.hexdigest (bytes_of_string "hello")) 5)
          "2cf24dba5fb0" ] /\
    "2cf24dba5fb0"%string = substring 0 12 (SHA256.hexdigest (bytes_of_string "hello")).
Proof.
  apply (publish_runs_upload_protocol_in_order Reference.lib Reference.env
           (Reference.services Reference.base) "file1.txt"
           (bytes_of_string "hello") []).
  vm_compute. reflexivity.
Defined.

(** C4.  Every publish that returns has submitted exactly one manifest, with
    [put_image] under the tag it returns, after a completion that declared
    the layer digest; and whatever the services answer, a manifest that a
    publish submits reads as the document with schema version 2, the manifest
    media type, a config descriptor and exactly one layer descriptor, each
    with the layer digest and the size [len(file_bytes)]
    ([manifest_document]), and a completion that the publish sends declares
    that same digest. *)
Theorem publish_submits_single_layer_manifest
    (lib : pylib) (env : environ) (aws : world) (object_key : string)
    (file_bytes : list byte) (t : list event) :
  exists es,
    snd (upload_to_ecr lib env aws object_key file_bytes t) = t ++ es /\
    (forall tag,
        fst (upload_to_ecr lib env aws object_key file_bytes t) = Returned tag ->
        exists upload_id manifest,
          filter is_put_image (requests_of es)
          = [put_image (ECR_REPO_NAME env) manifest tag] /\
          Json.loads manifest
          = Some (manifest_document ("sha256:" ++ SHA256.hexdigest file_bytes)
                    (List.length file_bytes)) /\
          In (complete_layer_upload (ECR_REPO_NAME env) upload_id
                [ ("sha256:" ++ SHA256.hexdigest file_bytes)%string ])
             (requests_of es)) /\
    (forall repo manifest tag,
        In (Request (put_image repo manifest tag)) es ->
        Json.loads manifest
        = Some (manifest_document ("sha256:" ++ SHA256.hexdigest file_bytes)
                  (List.length file_bytes))) /\
    (forall repo upload_id declared,
        In (Request (complete_layer_upload repo upload_id declared)) es ->
        declared = [ ("sha256:" ++ SHA256.hexdigest file_bytes)%string ]).
Proof.
  destruct (upload_to_ecr_emits lib env aws (well_formed_submission file_bytes)
              object_key file_bytes) with (t := t) as [es [E F]].
  - intros; exact I.
  - exact I.
  - intros c [[u ->]|[(u & i & a & b & l & ->)|[(u & i & ->)|(u & tag & ->)]]];
      simpl; auto.
    apply loads_image_manifest, digest_of_plain.
  - exists es. split; [exact E|].
    rewrite Forall_forall in F. split; [|split; intros ? ? ? Hin; exact (F _ Hin)].
    intros tag Hret.
    destruct (upload_to_ecr lib env aws object_key file_bytes t) as [o t'] eqn:Hup.
    cbn [fst snd] in Hret, E. subst o.
    destruct (upload_to_ecr_returned _ _ _ _ _ _ _ _ Hup)
      as (_ & session & _ & _ & _ & Htag & Ht').
    rewrite E in Ht'. apply app_inv_head in Ht'. subst es.
    exists (uploadId session),
           (image_manifest (digest_of file_bytes) (List.length file_bytes)).
    split; [rewrite Htag; reflexivity|].
    split; [apply loads_image_manifest, digest_of_plain|].
    cbn. tauto.
Qed.

(** A publish of [hello] against the sample services returns, and the one
    manifest it has submitted reads as the single-layer document of 5 bytes. *)
Lemma publish_submits_single_layer_manifest_sample :
  exists manifest,
    filter is_put_image
      (requests_of
         (snd (upload_to_ecr Reference.lib Reference.env
                 (Reference.services Reference.base) "file1.txt"
                 (bytes_of_string "hello") [])))
    = [put_image (Some "s3-backup"%string) manifest "2cf24dba5fb0"] /\
    Json.loads manifest
    = Some (manifest_document
              ("sha256:" ++ SHA256.hexdigest (bytes_of_string "hello")) 5).
Proof.
  destruct (publish_submits_single_layer_manifest Reference.lib Reference.env
              (Reference.services Reference.base) "file1.txt"
              (bytes_of_string "hello") [])
    as (es & E & R & _).
  destruct (R "2cf24dba5fb0"%string) as (upload_id & manifest & P & L & _).
  - vm_compute. reflexivity.
  - exists manifest. rewrite E. cbn [Datatypes.app]. split; [exact P | exact L].
Defined.

(** C6.  The tag a publish returns is the first twelve hexadecimal
    characters of the SHA-256 digest of the bytes, for every key and every
    byte sequence; it is also the tag given to [put_image]; and two publishes
    of the same bytes, under any keys and against any services, return the
    same tag. *)
Theorem published_tag_is_truncated_digest
    (lib lib' : pylib) (env env' : environ) (aws aws' : world)
    (key key' : string) (file_bytes : list byte) (t t1 t' t1' : list event)
    (tag tag' : string) :
  upload_to_ecr lib env aws key file_bytes t = (Returned tag, t1) ->
  upload_to_ecr lib' env' aws' key' file_bytes t' = (Returned tag', t1') ->
  tag = substring 0 12 (SHA256.hexdigest file_bytes) /\
  String.length tag = 12%nat /\
  forallb is_hex (list_ascii_of_string tag) = true /\
  In (put_image (ECR_REPO_NAME env)
        (image_manifest (digest_of file_bytes) (List.length file_bytes)) tag)
     (requests_of t1) /\
  tag = tag'.
Proof.
  intros H H'.
  destruct (upload_to_ecr_returned _ _ _ _ _ _ _ _ H)
    as (auth & session & _ & _ & _ & -> & ->).
  destruct (upload_to_ecr_returned _ _ _ _ _ _ _ _ H')
    as (auth' & session' & _ & _ & _ & -> & _).
  split; [reflexivity|]. split; [apply tag_of_length|].
  split; [apply tag_of_hex|]. split; [|reflexivity].
  rewrite requests_of_app. apply in_or_app. right. simpl. tauto.
Qed.

Lemma published_tag_sample :
  ("2cf24dba5fb0"%string = substring 0 12 (SHA256.hexdigest (bytes_of_string "hello")) /\
   String.length "2cf24dba5fb0" = 12%nat /\
   forallb is_hex (list_ascii_of_string "2cf24dba5fb0") = true /\
   In (put_image (Some "s3-backup"%string)
         (image_manifest (digest_of (bytes_of_string "hello")) 5) "2cf24dba5fb0")
      (requests_of
         (snd (upload_to_ecr Reference.lib Reference.env
                 (Reference.services Reference.base) "file1.txt"
                 (bytes_of_string "hello") []))) /\
   "2cf24dba5fb0"%string = "2cf24dba5fb0"%string).
Proof.
  apply (published_tag_is_truncated_digest
           Reference.lib Reference.lib Reference.env Reference.env
           (Reference.services Reference.base)
           (Reference.services
              (Reference.with_token
                 (Reference.token_reply "QVdTOm90aGVy" "https://other.example")
                 Reference.base))
           "file1.txt" "copy/of/file1.txt" (bytes_of_string "hello") []
           (snd (upload_to_ecr Reference.lib Reference.env
                   (Reference.services Reference.base) "file1.txt"
                   (bytes_of_string "hello") []))
           [Log INFO "earlier"]
           (snd (upload_to_ecr Reference.lib Reference.env
                   (Reference.services
                      (Reference.with_token
                         (Reference.token_reply "QVdTOm90aGVy" "https://other.example")
                         Reference.base))
                   "copy/of/file1.txt" (bytes_of_string "hello") [Log INFO "earlier"]))
           "2cf24dba5fb0" "2cf24dba5fb0");
    vm_compute; reflexivity.
Defined.

(** C10, as the code has it.  Two publishes of the same bytes against
    services that differ only in the authorization data they hand out have
    the same outcome and the same trace, hence return the same tag and issue
    the same registry calls, provided each token decodes into a user name and
    a password: base-64 text of bytes that decode to text with exactly one
    colon.  (A token that does not decode this way makes the publish raise
    before the first upload call.) *)
Theorem publish_independent_of_decodable_token
    (lib : pylib) (env : environ) (aws aws' : world) (object_key : string)
    (file_bytes : list byte) (t : list event)
    (auth auth' : get_authorization_token_response) :
  (forall h c, c <> get_authorization_token -> aws h c = aws' h c) ->
  aws (t ++ [Log INFO ("Uploading S3 object '" ++ object_key ++ "' to ECR...")])
      get_authorization_token = Reply auth ->
  token_decodes lib auth ->
  aws' (t ++ [Log INFO ("Uploading S3 object '" ++ object_key ++ "' to ECR...")])
       get_authorization_token = Reply auth' ->
  token_decodes lib auth' ->
  upload_to_ecr lib env aws object_key file_bytes t
  = upload_to_ecr lib env aws' object_key file_bytes t.
Proof.
  intros Hagree Hauth (d & ds & raw & text & u & p & Hd & Hraw & Htext & Hsplit)
         Hauth' (d' & ds' & raw' & text' & u' & p' & Hd' & Hraw' & Htext' & Hsplit').
  cbv beta iota zeta delta
    [upload_to_ecr bind log request ret lift index0 unpack2 try_except raise].
  rewrite Hauth, Hauth'. cbv beta iota.
  rewrite Hd, Hd'. cbv beta iota.
  rewrite Hraw, Hraw'. cbv beta iota.
  rewrite Htext, Htext'. cbv beta iota.
  rewrite Hsplit, Hsplit'. cbv beta iota.
  repeat first
    [ rewrite Hagree by discriminate
    | match goal with
      | |- context [match aws' ?h ?c with _ => _ end] => destruct (aws' h c)
      end; cbv beta iota ];
    reflexivity.
Qed.

Lemma publish_independent_of_token_sample :
  upload_to_ecr Reference.lib Reference.env (Reference.services Reference.base)
    "file1.txt" (bytes_of_string "hello") []
  = upload_to_ecr Reference.lib Reference.env
      (Reference.services
         (Reference.with_token
            (Reference.token_reply "QVdTOm90aGVy" "https://other.example")
            Reference.base))
      "file1.txt" (bytes_of_string "hello") [].
Proof.
  apply (publish_independent_of_decodable_token
           Reference.lib Reference.env
           (Reference.services Reference.base)
           (Reference.services
              (Reference.with_token
                 (Reference.token_reply "QVdTOm90aGVy" "https://other.example")
                 Reference.base))
           "file1.txt" (bytes_of_string "hello") []
           {| authorizationData :=
                [ {| authorizationToken := "QVdTOnNlY3JldA==";
                     proxyEndpoint := "https://registry.example" |} ] |}
           {| authorizationData :=
                [ {| authorizationToken := "QVdTOm90aGVy";
                     proxyEndpoint := "https://other.example" |} ] |}).
  - intros h c Hc. destruct c; solve [reflexivity | contradiction].
  - reflexivity.
  - exists {| authorizationToken := "QVdTOnNlY3JldA==";
              proxyEndpoint := "https://registry.example" |}, [],
           (bytes_of_string "AWS:secret"), "AWS:secret"%string,
           "AWS"%string, "secret"%string.
    repeat split; reflexivity.
  - reflexivity.
  - exists {| authorizationToken := "QVdTOm90aGVy";
              proxyEndpoint := "https://other.example" |}, [],
           (bytes_of_string "AWS:other"), "AWS:other"%string,
           "AWS"%string, "other"%string.
    repeat split; reflexivity.
Defined.

(** C10 as stated fails: the same bytes published against services that
    differ only in the token.  With the base-64 text of [AWS:secret] the
    publish returns the tag; with the base-64 text of [nocolon] the
    unpacking of [split(":")] raises ValueError after the token call, and
    no upload call is issued. *)
Lemma publish_outcome_depends_on_token_shape :
  fst (upload_to_ecr Reference.lib Reference.env
         (Reference.services Reference.base)
         "file1.txt" (bytes_of_string "hello") [])
  = Returned "2cf24dba5fb0"%string /\
  upload_to_ecr Reference.lib Reference.env
    (Reference.services
       (Reference.with_token
          (Reference.token_reply "bm9jb2xvbg==" "https://registry.example")
          Reference.base))
    "file1.txt" (bytes_of_string "hello") []
  = (Raised (OtherException "ValueError"
               "not enough values to unpack (expected 2, got 1)"),
     [ Log INFO "Uploading S3 object 'file1.txt' to ECR...";
       Request get_authorization_token ]).
Proof. split; vm_compute; reflexivity. Qed.

(** ** The repository provisioner *)

Section Provisioner.

Variable env : environ.
Variable aws : world.

Lemma ensure_repository_exists_found (t : list event)
    (found : describe_repositories_response) (r : repository_info)
    (rs : list repository_info) :
  aws t (describe_repositories [ECR_REPO_NAME env]) = Reply found ->
  repositories found = r :: rs ->
  ensure_repository_exists env aws t
  = (Returned (repositoryUri r),
     t ++ [ Request (describe_repositories [ECR_REPO_NAME env]);
            Log INFO ("ECR repository '" ++ str_env (ECR_REPO_NAME env)
                      ++ "' already exists.") ]).
Proof.
  intros H Hr.
  cbv beta iota zeta delta
    [ensure_repository_exists bind log request ret index0 try_except raise].
  rewrite H. cbv beta iota. rewrite Hr. cbv beta iota.
  flatten_trace. reflexivity.
Qed.

Lemma ensure_repository_exists_created (t : list event) (e : exn)
    (created : create_repository_response) :
  aws t (describe_repositories [ECR_REPO_NAME env]) = Fault e ->
  is_RepositoryNotFoundException e = true ->
  aws (t ++ [ Request (describe_repositories [ECR_REPO_NAME env]);
              Log INFO ("ECR repository '" ++ str_env (ECR_REPO_NAME env)
                        ++ "' not found, creating...") ])
      (create_repository (ECR_REPO_NAME env)) = Reply created ->
  ensure_repository_exists env aws t
  = (Returned (repositoryUri (repository created)),
     t ++ [ Request (describe_repositories [ECR_REPO_NAME env]);
            Log INFO ("ECR repository '" ++ str_env (ECR_REPO_NAME env)
                      ++ "' not found, creating...");
            Request (create_repository (ECR_REPO_NAME env)) ]).
Proof.
  intros H He Hc.
  cbv beta iota zeta delta
    [ensure_repository_exists bind log request ret index0 try_except raise].
  rewrite H. cbv beta iota. rewrite He. cbv beta iota.
  flatten_trace. rewrite Hc. cbv beta iota. flatten_trace. reflexivity.
Qed.

Lemma ensure_repository_exists_propagates (t : list event) (e : exn) :
  aws t (describe_repositories [ECR_REPO_NAME env]) = Fault e ->
  is_RepositoryNotFoundException e = false ->
  ensure_repository_exists env aws t
  = (Raised e, t ++ [Request (describe_repositories [ECR_REPO_NAME env])]).
Proof.
  intros H He.
  cbv beta iota zeta delta
    [ensure_repository_exists bind log request ret index0 try_except raise].
  rewrite H. cbv beta iota. rewrite He. reflexivity.
Qed.

Lemma ensure_repository_exists_emits :
  emits (provisioning env) (ensure_repository_exists env aws).
Proof.
  unfold ensure_repository_exists.
  repeat emits_step; simpl; auto.
Qed.

End Provisioner.

(** C8.  [ensure_repository_exists]: when the repository is found, its URI
    is returned and the only call made is the query (no repository is
    created); when the query raises the repository-not-found exception, the
    repository is created and the URI of the created repository is returned;
    when the query raises anything else, that same exception reaches the
    caller and no creation is attempted. *)
Theorem ensure_repository_exists_cases
    (env : environ) (aws : world) (t : list event) :
  let query := describe_repositories [ECR_REPO_NAME env] in
  let creating :=
    Log INFO ("ECR repository '" ++ str_env (ECR_REPO_NAME env)
              ++ "' not found, creating...") in
  (forall found r rs,
      aws t query = Reply found ->
      repositories found = r :: rs ->
      fst (ensure_repository_exists env aws t) = Returned (repositoryUri r) /\
      requests_of (snd (ensure_repository_exists env aws t))
      = requests_of t ++ [query]) /\
  (forall e created,
      aws t query = Fault e ->
      is_RepositoryNotFoundException e = true ->
      aws (t ++ [Request query; creating])
          (create_repository (ECR_REPO_NAME env)) = Reply created ->
      fst (ensure_repository_exists env aws t)
      = Returned (repositoryUri (repository created)) /\
      requests_of (snd (ensure_repository_exists env aws t))
      = requests_of t ++ [query; create_repository (ECR_REPO_NAME env)]) /\
  (forall e,
      aws t query = Fault e ->
      is_RepositoryNotFoundException e = false ->
      fst (ensure_repository_exists env aws t) = Raised e /\
      requests_of (snd (ensure_repository_exists env aws t))
      = requests_of t ++ [query]).
Proof.
  intros query creating. repeat split.
  - now rewrite (ensure_repository_exists_found env aws t found r rs).
  - rewrite (ensure_repository_exists_found env aws t found r rs) by assumption.
    simpl. now rewrite requests_of_app.
  - now rewrite (ensure_repository_exists_created env aws t e created).
  - rewrite (ensure_repository_exists_created env aws t e created) by assumption.
    simpl. now rewrite requests_of_app.
  - now rewrite (ensure_repository_exists_propagates env aws t e).
  - rewrite (ensure_repository_exists_propagates env aws t e) by assumption.
    simpl. now rewrite requests_of_app.
Qed.

Lemma ensure_repository_exists_samples :
  (fst (ensure_repository_exists Reference.env
          (Reference.services Reference.base) [])
   = Returned Reference.uri /\
   requests_of (snd (ensure_repository_exists Reference.env
                       (Reference.services Reference.base) []))
   = [describe_repositories [Some "s3-backup"%string]]) /\
  (fst (ensure_repository_exists Reference.env
          (Reference.services
             (Reference.with_repositories
                (Fault (RepositoryNotFoundException "not found")) Reference.base))
          [])
   = Returned Reference.uri /\
   requests_of (snd (ensure_repository_exists Reference.env
                       (Reference.services
                          (Reference.with_repositories
                             (Fault (RepositoryNotFoundException "not found"))
                             Reference.base))
                       []))
   = [ describe_repositories [Some "s3-backup"%string];
       create_repository (Some "s3-backup"%string) ]) /\
  (fst (ensure_repository_exists Reference.env
          (Reference.services
             (Reference.with_repositories
                (Fault (ClientError "ThrottlingException" "Rate exceeded"))
                Reference.base))
          [])
   = Raised (ClientError "ThrottlingException" "Rate exceeded") /\
   requests_of (snd (ensure_repository_exists Reference.env
                       (Reference.services
                          (Reference.with_repositories
                             (Fault (ClientError "ThrottlingException" "Rate exceeded"))
                             Reference.base))
                       []))
   = [describe_repositories [Some "s3-backup"%string]]).
Proof.
  split; [|split].
  - apply (proj1 (ensure_repository_exists_cases Reference.env
                    (Reference.services Reference.base) []))
      with (found := {| repositories := [ {| repositoryUri := Reference.uri |} ] |})
           (r := {| repositoryUri := Reference.uri |}) (rs := []); reflexivity.
  - apply (proj1 (proj2 (ensure_repository_exists_cases Reference.env
                           (Reference.services
                              (Reference.with_repositories
                                 (Fault (RepositoryNotFoundException "not found"))
                                 Reference.base)) [])))
      with (e := RepositoryNotFoundException "not found")
           (created := {| repository := {| repositoryUri := Reference.uri |} |});
      reflexivity.
  - apply (proj2 (proj2 (ensure_repository_exists_cases Reference.env
                           (Reference.services
                              (Reference.with_repositories
                                 (Fault (ClientError "ThrottlingException"
                                           "Rate exceeded"))
                                 Reference.base)) [])));
      reflexivity.
Defined.

(** ** The sweep of untagged images *)

Section Sweeper.

Variable lib : pylib.
Variable env : environ.
Variable aws : world.

Let starting : event := Log INFO "Starting cleanup: deleting untagged images...".
Let listing : call := describe_images (ECR_REPO_NAME env) "UNTAGGED".

Ltac run_cleanup :=
  cbv beta iota zeta delta
    [cleanup_untagged_images bind log request ret try_except raise].

Lemma cleanup_listing_refused (t : list event) (e : exn) :
  aws (t ++ [starting]) listing = Fault e ->
  is_ClientError e = true ->
  cleanup_untagged_images lib env aws t
  = (Returned PyNone,
     t ++ [ starting; Request listing;
            Log ERROR ("Failed to describe images for cleanup: " ++ str_exn e) ]).
Proof.
  intros H He. run_cleanup. fold starting listing.
  rewrite H. cbv beta iota. rewrite He. cbv beta iota.
  flatten_trace. reflexivity.
Qed.

Lemma cleanup_listing_raises (t : list event) (e : exn) :
  aws (t ++ [starting]) listing = Fault e ->
  is_ClientError e = false ->
  cleanup_untagged_images lib env aws t
  = (Raised e, t ++ [starting; Request listing]).
Proof.
  intros H He. run_cleanup. fold starting listing.
  rewrite H. cbv beta iota. rewrite He. cbv beta iota.
  flatten_trace. reflexivity.
Qed.

Lemma cleanup_nothing_untagged (t : list event)
    (images : describe_images_response) :
  aws (t ++ [starting]) listing = Reply images ->
  get_default (imageDetails images) = [] ->
  cleanup_untagged_images lib env aws t
  = (Returned PyNone,
     t ++ [starting; Request listing; Log INFO "No untagged images found"]).
Proof.
  intros H Hnone. run_cleanup. fold starting listing.
  rewrite H. cbv beta iota. rewrite Hnone. cbv beta iota.
  flatten_trace. reflexivity.
Qed.

Lemma cleanup_delete_refused (t : list event)
    (images : describe_images_response) (d : image_detail)
    (ds : list image_detail) (e : exn) :
  aws (t ++ [starting]) listing = Reply images ->
  get_default (imageDetails images) = d :: ds ->
  aws (t ++ [starting; Request listing])
      (batch_delete_image (ECR_REPO_NAME env) (batch_of (d :: ds))) = Fault e ->
  is_ClientError e = true ->
  cleanup_untagged_images lib env aws t
  = (Returned PyNone,
     t ++ [ starting; Request listing;
            Request (batch_delete_image (ECR_REPO_NAME env) (batch_of (d :: ds)));
            Log ERROR ("Failed to delete untagged images: " ++ str_exn e) ]).
Proof.
  intros H Hsome Hdel He. run_cleanup. fold starting listing.
  rewrite H. cbv beta iota. rewrite Hsome. cbv beta iota.
  flatten_trace. rewrite Hdel. cbv beta iota. rewrite He. cbv beta iota.
  flatten_trace. reflexivity.
Qed.

Lemma cleanup_delete_raises (t : list event)
    (images : describe_images_response) (d : image_detail)
    (ds : list image_detail) (e : exn) :
  aws (t ++ [starting]) listing = Reply images ->
  get_default (imageDetails images) = d :: ds ->
  aws (t ++ [starting; Request listing])
      (batch_delete_image (ECR_REPO_NAME env) (batch_of (d :: ds))) = Fault e ->
  is_ClientError e = false ->
  fst (cleanup_untagged_images lib env aws t) = Raised e.
Proof.
  intros H Hsome Hdel He. run_cleanup. fold starting listing.
  rewrite H. cbv beta iota. rewrite Hsome. cbv beta iota.
  flatten_trace. rewrite Hdel. cbv beta iota. rewrite He. reflexivity.
Qed.

Lemma cleanup_deleted (t : list event)
    (images : describe_images_response) (d : image_detail)
    (ds : list image_detail) (r : batch_delete_image_response) :
  aws (t ++ [starting]) listing = Reply images ->
  get_default (imageDetails images) = d :: ds ->
  aws (t ++ [starting; Request listing])
      (batch_delete_image (ECR_REPO_NAME env) (batch_of (d :: ds))) = Reply r ->
  fst (cleanup_untagged_images lib env aws t) = Returned PyNone /\
  requests_of (snd (cleanup_untagged_images lib env aws t))
  = requests_of t
    ++ [listing; batch_delete_image (ECR_REPO_NAME env) (batch_of (d :: ds))].
Proof.
  intros H Hsome Hdel. run_cleanup. fold starting listing.
  rewrite H. cbv beta iota. rewrite Hsome. cbv beta iota.
  flatten_trace. rewrite Hdel. cbv beta iota.
  destruct (get_default (failures r)); cbv beta iota; flatten_trace;
    cbn [fst snd]; (split; [reflexivity|]); rewrite requests_of_app;
    reflexivity.
Qed.

(** The sweep returns [None] or lets through an exception that is not a
    [ClientError]. *)
Lemma cleanup_outcome (t : list event) :
  fst (cleanup_untagged_images lib env aws t) = Returned PyNone \/
  exists e, fst (cleanup_untagged_images lib env aws t) = Raised e /\
            is_ClientError e = false.
Proof.
  destruct (aws (t ++ [starting]) listing) as [images|e] eqn:H.
  - destruct (get_default (imageDetails images)) as [|d ds] eqn:Hd.
    + left. now rewrite (cleanup_nothing_untagged t images H Hd).
    + destruct (aws (t ++ [starting; Request listing])
                  (batch_delete_image (ECR_REPO_NAME env) (batch_of (d :: ds))))
        as [r|e] eqn:Hdel.
      * left. exact (proj1 (cleanup_deleted t images d ds r H Hd Hdel)).
      * destruct (is_ClientError e) eqn:He.
        -- left. now rewrite (cleanup_delete_refused t images d ds e H Hd Hdel He).
        -- right. exists e. split; [|exact He].
           exact (cleanup_delete_raises t images d ds e H Hd Hdel He).
  - destruct (is_ClientError e) eqn:He.
    + left. now rewrite (cleanup_listing_refused t e H He).
    + right. exists e. split; [|exact He].
      now rewrite (cleanup_listing_raises t e H He).
Qed.

End Sweeper.

(** C5, as the code has it.  [cleanup_untagged_images] returns [None] on
    every path on which it returns, never a report of counts, and the only
    exceptions it lets through are those that are not a [ClientError].  With
    no untagged image it logs that none was found, issues no delete call and
    returns; when the listing call or the batch-delete call raises a
    [ClientError], the failure is logged at error level and the sweep returns
    without raising; an exception of another class raised by either call
    propagates. *)
Theorem cleanup_untagged_images_cases
    (lib : pylib) (env : environ) (aws : world) (t : list event) :
  let starting := Log INFO "Starting cleanup: deleting untagged images..." in
  let listing := describe_images (ECR_REPO_NAME env) "UNTAGGED" in
  (fst (cleanup_untagged_images lib env aws t) = Returned PyNone \/
   exists e, fst (cleanup_untagged_images lib env aws t) = Raised e /\
             is_ClientError e = false) /\
  (forall images,
      aws (t ++ [starting]) listing = Reply images ->
      get_default (imageDetails images) = [] ->
      cleanup_untagged_images lib env aws t
      = (Returned PyNone,
         t ++ [starting; Request listing; Log INFO "No untagged images found"])) /\
  (forall e,
      aws (t ++ [starting]) listing = Fault e ->
      is_ClientError e = true ->
      cleanup_untagged_images lib env aws t
      = (Returned PyNone,
         t ++ [ starting; Request listing;
                Log ERROR ("Failed to describe images for cleanup: "
                           ++ str_exn e) ])) /\
  (forall images d ds e,
      aws (t ++ [starting]) listing = Reply images ->
      get_default (imageDetails images) = d :: ds ->
      aws (t ++ [starting; Request listing])
          (batch_delete_image (ECR_REPO_NAME env) (batch_of (d :: ds))) = Fault e ->
      is_ClientError e = true ->
      cleanup_untagged_images lib env aws t
      = (Returned PyNone,
         t ++ [ starting; Request listing;
                Request (batch_delete_image (ECR_REPO_NAME env)
                           (batch_of (d :: ds)));
                Log ERROR ("Failed to delete untagged images: " ++ str_exn e) ])) /\
  (forall e,
      aws (t ++ [starting]) listing = Fault e ->
      is_ClientError e = false ->
      cleanup_untagged_images lib env aws t
      = (Raised e, t ++ [starting; Request listing])) /\
  (forall images d ds e,
      aws (t ++ [starting]) listing = Reply images ->
      get_default (imageDetails images) = d :: ds ->
      aws (t ++ [starting; Request listing])
          (batch_delete_image (ECR_REPO_NAME env) (batch_of (d :: ds))) = Fault e ->
      is_ClientError e = false ->
      fst (cleanup_untagged_images lib env aws t) = Raised e).
Proof.
  intros starting listing.
  split; [apply cleanup_outcome|].
  split; [intros; eapply cleanup_nothing_untagged; eassumption|].
  split; [intros; now apply cleanup_listing_refused|].
  split; [intros; eapply cleanup_delete_refused; eassumption|].
  split; [intros; now apply cleanup_listing_raises|].
  intros; eapply cleanup_delete_raises; eassumption.
Qed.

Lemma cleanup_untagged_images_samples :
  cleanup_untagged_images Reference.lib Reference.env
    (Reference.services Reference.base) []
  = (Returned PyNone,
     [ Log INFO "Starting cleanup: deleting untagged images...";
       Request (describe_images (Some "s3-backup"%string) "UNTAGGED");
       Log INFO "No untagged images found" ]) /\
  cleanup_untagged_images Reference.lib Reference.env
    (Reference.services
       (Reference.with_images (Fault Reference.access_denied)
          (Fault Reference.access_denied) Reference.base)) []
  = (Returned PyNone,
     [ Log INFO "Starting cleanup: deleting untagged images...";
       Request (describe_images (Some "s3-backup"%string) "UNTAGGED");
       Log ERROR ("Failed to describe images for cleanup: "
                  ++ str_exn Reference.access_denied) ]) /\
  cleanup_untagged_images Reference.lib Reference.env
    (Reference.services
       (Reference.with_images
          (Reply {| imageDetails :=
                      Some [ {| imageDigest := Some "sha256:0a"%string |};
                             {| imageDigest := None |} ] |})
          (Fault Reference.access_denied) Reference.base)) []
  = (Returned PyNone,
     [ Log INFO "Starting cleanup: deleting untagged images...";
       Request (describe_images (Some "s3-backup"%string) "UNTAGGED");
       Request (batch_delete_image (Some "s3-backup"%string) [ImageId "sha256:0a"]);
       Log ERROR ("Failed to delete untagged images: "
                  ++ str_exn Reference.access_denied) ]) /\
  cleanup_untagged_images Reference.lib Reference.env
    (Reference.services
       (Reference.with_images (Fault Reference.connection_lost)
          (Fault Reference.access_denied) Reference.base)) []
  = (Raised Reference.connection_lost,
     [ Log INFO "Starting cleanup: deleting untagged images...";
       Request (describe_images (Some "s3-backup"%string) "UNTAGGED") ]) /\
  fst (cleanup_untagged_images Reference.lib Reference.env
         (Reference.services
            (Reference.with_images
               (Reply {| imageDetails :=
                           Some [ {| imageDigest := Some "sha256:0a"%string |} ] |})
               (Fault Reference.connection_lost) Reference.base)) [])
  = Raised Reference.connection_lost.
Proof.
  split; [|split; [|split; [|split]]].
  - apply (proj1 (proj2 (cleanup_untagged_images_cases Reference.lib Reference.env
                           (Reference.services Reference.base) [])))
      with (images := {| imageDetails := Some [] |}); reflexivity.
  - apply (proj1 (proj2 (proj2
             (cleanup_untagged_images_cases Reference.lib Reference.env
                (Reference.services
                   (Reference.with_images (Fault Reference.access_denied)
                      (Fault Reference.access_denied) Reference.base)) []))));
      reflexivity.
  - apply (proj1 (proj2 (proj2 (proj2
             (cleanup_untagged_images_cases Reference.lib Reference.env
                (Reference.services
                   (Reference.with_images
                      (Reply {| imageDetails :=
                                  Some [ {| imageDigest := Some "sha256:0a"%string |};
                                         {| imageDigest := None |} ] |})
                      (Fault Reference.access_denied) Reference.base)) [])))))
      with (images := {| imageDetails :=
                           Some [ {| imageDigest := Some "sha256:0a"%string |};
                                  {| imageDigest := None |} ] |})
           (d := {| imageDigest := Some "sha256:0a"%string |})
           (ds := [ {| imageDigest := None |} ]);
      reflexivity.
  - apply (proj1 (proj2 (proj2 (proj2 (proj2
             (cleanup_untagged_images_cases Reference.lib Reference.env
                (Reference.services
                   (Reference.with_images (Fault Reference.connection_lost)
                      (Fault Reference.access_denied) Reference.base)) []))))));
      reflexivity.
  - apply (proj2 (proj2 (proj2 (proj2 (proj2
             (cleanup_untagged_images_cases Reference.lib Reference.env
                (Reference.services
                   (Reference.with_images
                      (Reply {| imageDetails :=
                                  Some [ {| imageDigest := Some "sha256:0a"%string |} ] |})
                      (Fault Reference.connection_lost) Reference.base)) []))))))
      with (images := {| imageDetails :=
                           Some [ {| imageDigest := Some "sha256:0a"%string |} ] |})
           (d := {| imageDigest := Some "sha256:0a"%string |})
           (ds := []);
      reflexivity.
Defined.

(** C5 as stated fails twice over.  With no untagged image the sweep
    returns [None], which is not the report [{deleted: 0, failures: []}];
    and when the listing call raises an exception that is not a
    [ClientError] (here a lost connection), the sweep raises it. *)
Lemma cleanup_returns_no_report_and_may_raise :
  (fst (cleanup_untagged_images Reference.lib Reference.env
          (Reference.services Reference.base) [])
   = Returned PyNone /\
   PyNone <> PyDict [ ("deleted"%string, PyInt 0);
                      ("failures"%string, PyList []) ]) /\
  fst (cleanup_untagged_images Reference.lib Reference.env
         (Reference.services
            (Reference.with_images (Fault Reference.connection_lost)
               (Fault Reference.connection_lost) Reference.base)) [])
  = Raised (OtherException "EndpointConnectionError"
              "Could not connect to the endpoint URL").
Proof.
  split; [split; [reflexivity | discriminate] | reflexivity].
Qed.

(** ** The entry point *)

Lemma no_sweep_requests (es : list event) :
  Forall no_sweep es -> filter sweep_request (requests_of es) = [].
Proof.
  induction 1 as [|[c|level msg] es H _ IH]; simpl; auto.
  simpl in H. now rewrite H.
Qed.

Lemma provisioning_requests (env : environ) (es : list event) :
  Forall (provisioning env) es ->
  Forall (fun c => c = describe_repositories [ECR_REPO_NAME env] \/
                   c = create_repository (ECR_REPO_NAME env))
         (requests_of es).
Proof.
  induction 1 as [|[c|level msg] es H _ IH]; simpl; auto.
Qed.

Section Orchestrator.

Variable lib : pylib.
Variable env : environ.
Variable aws : world.

(** One turn of the loop, by what the fetch gives. *)
Lemma process_objects_fetched (obj : s3_object) (rest : list s3_object)
    (results : list pyval) (t : list event) (file_bytes : list byte) :
  aws (t ++ [Log INFO ("Processing S3 object: " ++ Key obj)])
      (get_object (S3_BUCKET_NAME env) (Key obj)) = Reply file_bytes ->
  process_objects lib env aws (obj :: rest) results t
  = match upload_to_ecr lib env aws (Key obj) file_bytes
            (t ++ [ Log INFO ("Processing S3 object: " ++ Key obj);
                    Request (get_object (S3_BUCKET_NAME env) (Key obj)) ]) with
    | (Returned tag, t') =>
        process_objects lib env aws rest
          (results ++ [report_item (Key obj) tag]) t'
    | (Raised e, t') => (Raised e, t')
    end.
Proof.
  intros H. cbn [process_objects].
  cbv beta iota zeta delta [bind log request ret try_except raise].
  rewrite H. cbv beta iota. flatten_trace. reflexivity.
Qed.

Lemma process_objects_skipped (obj : s3_object) (rest : list s3_object)
    (results : list pyval) (t : list event) (e : exn) :
  aws (t ++ [Log INFO ("Processing S3 object: " ++ Key obj)])
      (get_object (S3_BUCKET_NAME env) (Key obj)) = Fault e ->
  is_ClientError e = true ->
  process_objects lib env aws (obj :: rest) results t
  = process_objects lib env aws rest results
      (t ++ [ Log INFO ("Processing S3 object: " ++ Key obj);
              Request (get_object (S3_BUCKET_NAME env) (Key obj));
              Log ERROR ("Error downloading S3 object '" ++ Key obj ++ "': "
                         ++ str_exn e) ]).
Proof.
  intros H He. cbn [process_objects].
  cbv beta iota zeta delta [bind log request ret try_except raise].
  rewrite H. cbv beta iota. rewrite He. cbv beta iota.
  flatten_trace. reflexivity.
Qed.

Lemma process_objects_aborted (obj : s3_object) (rest : list s3_object)
    (results : list pyval) (t : list event) (e : exn) :
  aws (t ++ [Log INFO ("Processing S3 object: " ++ Key obj)])
      (get_object (S3_BUCKET_NAME env) (Key obj)) = Fault e ->
  is_ClientError e = false ->
  process_objects lib env aws (obj :: rest) results t
  = (Raised e,
     t ++ [ Log INFO ("Processing S3 object: " ++ Key obj);
            Request (get_object (S3_BUCKET_NAME env) (Key obj)) ]).
Proof.
  intros H He. cbn [process_objects].
  cbv beta iota zeta delta [bind log request ret try_except raise].
  rewrite H. cbv beta iota. rewrite He. cbv beta iota.
  flatten_trace. reflexivity.
Qed.

(** The loop over a listing that the services serve: the entries of the
    fetched objects are added to the results, in listing order. *)
Lemma process_objects_served (contents : list s3_object) :
  forall (fetched : list (reply (list byte))) (results : list pyval)
         (t : list event),
    served lib env aws contents fetched t ->
    exists t',
      process_objects lib env aws contents results t
      = (Returned (results ++ reported contents fetched), t').
Proof.
  induction contents as [|obj rest IH]; intros [|r rs] results t H;
    cbn [served] in H; try contradiction.
  - exists t. cbn. now rewrite app_nil_r.
  - cbv zeta in H. destruct H as [Hf Hr]. destruct r as [file_bytes|e].
    + destruct Hr as (tag & t1 & Hup & Hrest).
      rewrite (process_objects_fetched obj rest results t file_bytes Hf), Hup.
      destruct (upload_to_ecr_returned _ _ _ _ _ _ _ _ Hup)
        as (_ & _ & _ & _ & _ & Htag & _).
      destruct (IH rs (results ++ [report_item (Key obj) tag]) t1 Hrest)
        as [t' E].
      exists t'. rewrite E, <- app_assoc, Htag. reflexivity.
    + destruct Hr as [He Hrest].
      rewrite (process_objects_skipped obj rest results t e Hf He).
      exact (IH rs results _ Hrest).
Qed.

(** The entry point, once the repository is there and the listing answered. *)
Lemma lambda_handler_listed (t t1 : list event) (uri : string)
    (r : list_objects_v2_response) (event context : pyval) :
  ensure_repository_exists env aws (t ++ [Log INFO "Lambda function started."])
  = (Returned uri, t1) ->
  aws (t1 ++ [Log INFO ("ECR repository URI: " ++ uri)])
      (list_objects_v2 (S3_BUCKET_NAME env) (S3_PREFIX_FILTER env)) = Reply r ->
  lambda_handler lib env aws event context t
  = match Contents r with
    | None =>
        (Returned (PyDict [("status"%string, PyStr "no_objects")]),
         t1 ++ [ Log INFO ("ECR repository URI: " ++ uri);
                 Request (list_objects_v2 (S3_BUCKET_NAME env) (S3_PREFIX_FILTER env));
                 Log INFO "No objects to process." ])
    | Some contents =>
        match process_objects lib env aws contents []
                (t1 ++ [ Log INFO ("ECR repository URI: " ++ uri);
                         Request (list_objects_v2 (S3_BUCKET_NAME env)
                                    (S3_PREFIX_FILTER env)) ]) with
        | (Returned results, t2) =>
            (Returned (PyDict [ ("status"%string, PyStr "success");
                                ("items"%string, PyList results) ]),
             t2 ++ [ Log INFO ("Backup completed for "
                               ++ str_nat (List.length results) ++ " objects.") ])
        | (Raised e, t2) => (Raised e, t2)
        end
    end.
Proof.
  intros Hrepo Hlist.
  cbv beta iota zeta delta [lambda_handler bind log request ret try_except raise].
  rewrite Hrepo. cbv beta iota. rewrite Hlist. cbv beta iota.
  destruct (Contents r) as [contents|]; cbv beta iota;
    [|flatten_trace; reflexivity].
  flatten_trace.
  destruct (process_objects lib env aws contents [] _) as [[results|e] t2];
    reflexivity.
Qed.

Lemma process_objects_no_sweep (contents : list s3_object) :
  forall results, emits no_sweep (process_objects lib env aws contents results).
Proof.
  induction contents as [|obj rest IH]; intros results; cbn [process_objects].
  - apply emits_ret.
  - repeat emits_step; simpl; auto.
    apply upload_to_ecr_emits; simpl; auto.
    intros c [[u ->]|[(u & i & x & y & l & ->)|[(u & i & ->)|(u & tag & ->)]]];
      reflexivity.
Qed.

Lemma lambda_handler_no_sweep (event context : pyval) :
  emits no_sweep (lambda_handler lib env aws event context).
Proof.
  unfold lambda_handler.
  repeat emits_step; simpl; auto.
  - apply emits_weaken with (P := provisioning env);
      [|apply ensure_repository_exists_emits].
    intros [c|level msg]; simpl; [|auto]. intros [-> | ->]; reflexivity.
  - apply process_objects_no_sweep.
Qed.

End Orchestrator.

(** C1, as the code has it.  No run of [lambda_handler] attempts the sweep:
    whatever the services answer and however many objects are skipped, the
    events of the run contain no [describe_images] and no
    [batch_delete_image] call, so that no failure of the sweep can abort a
    run.  [cleanup_untagged_images] is a function of its own that the entry
    point does not call. *)
Theorem lambda_handler_never_attempts_sweep
    (lib : pylib) (env : environ) (aws : world) (t : list event)
    (event context : pyval) :
  exists es,
    snd (lambda_handler lib env aws event context t) = t ++ es /\
    filter sweep_request (requests_of es) = [].
Proof.
  destruct (lambda_handler_no_sweep lib env aws event context t) as [es [E F]].
  exists es. split; [exact E | now apply no_sweep_requests].
Qed.

(** C1 as stated fails: a run over one object reaches the loop, publishes
    the object and returns, and the number of sweep calls in its trace is
    zero, not one. *)
Lemma completed_run_has_no_sweep_call :
  fst (lambda_handler Reference.lib Reference.env
         (Reference.services Reference.base) PyNone PyNone [])
  = Returned (PyDict [ ("status"%string, PyStr "success");
                       ("items"%string,
                        PyList [report_item "file1.txt" "2cf24dba5fb0"]) ]) /\
  List.length
    (filter sweep_request
       (requests_of
          (snd (lambda_handler Reference.lib Reference.env
                  (Reference.services Reference.base) PyNone PyNone []))))
  = 0%nat.
Proof. split; vm_compute; reflexivity. Qed.

(** C2.  A run whose listing holds the one key [file1.txt], whose fetch
    gives the bytes [hello] and whose publish returns, returns the status
    [success] with the one item that pairs the key with the tag
    [2cf24dba5fb0], the first twelve characters of the SHA-256 digest of
    [hello].  (The dictionary keys are written [object_key] and [image_tag]
    in the code.) *)
Theorem single_object_run_reports_key_and_tag
    (lib : pylib) (env : environ) (aws : world) (t t1 t2 : list event)
    (uri tag : string) (event context : pyval) :
  let listing := list_objects_v2 (S3_BUCKET_NAME env) (S3_PREFIX_FILTER env) in
  let fetching := get_object (S3_BUCKET_NAME env) "file1.txt" in
  ensure_repository_exists env aws (t ++ [Log INFO "Lambda function started."])
  = (Returned uri, t1) ->
  aws (t1 ++ [Log INFO ("ECR repository URI: " ++ uri)]) listing
  = Reply {| Contents := Some [ {| Key := "file1.txt" |} ] |} ->
  aws (t1 ++ [ Log INFO ("ECR repository URI: " ++ uri); Request listing;
               Log INFO "Processing S3 object: file1.txt" ]) fetching
  = Reply (bytes_of_string "hello") ->
  upload_to_ecr lib env aws "file1.txt" (bytes_of_string "hello")
    (t1 ++ [ Log INFO ("ECR repository URI: " ++ uri); Request listing;
             Log INFO "Processing S3 object: file1.txt"; Request fetching ])
  = (Returned tag, t2) ->
  lambda_handler lib env aws event context t
  = (Returned
       (PyDict [ ("status"%string, PyStr "success");
                 ("items"%string,
                  PyList [ PyDict [ ("object_key"%string, PyStr "file1.txt");
                                    ("image_tag"%string, PyStr "2cf24dba5fb0") ] ]) ]),
     t2 ++ [Log INFO "Backup completed for 1 objects."]).
Proof.
  intros listing fetching Hrepo Hlist Hfetch Hup.
  rewrite (lambda_handler_listed lib env aws t t1 uri _ event context Hrepo Hlist).
  cbn [Contents].
  rewrite (process_objects_fetched lib env aws {| Key := "file1.txt" |} [] []
             _ (bytes_of_string "hello"));
    [|rewrite <- app_assoc; exact Hfetch].
  rewrite <- app_assoc. cbn [Datatypes.app Key].
  match goal with
  | |- context [upload_to_ecr lib env aws ?k ?b ?h] =>
      change (upload_to_ecr lib env aws k b h)
        with (upload_to_ecr lib env aws "file1.txt" (bytes_of_string "hello")
                (t1 ++ [ Log INFO ("ECR repository URI: " ++ uri); Request listing;
                         Log INFO "Processing S3 object: file1.txt";
                         Request fetching ]))
  end.
  rewrite Hup. cbn [process_objects].
  destruct (upload_to_ecr_returned _ _ _ _ _ _ _ _ Hup)
    as (_ & _ & _ & _ & _ & -> & _).
  reflexivity.
Qed.

Lemma single_object_run_sample :
  lambda_handler Reference.lib Reference.env (Reference.services Reference.base)
    PyNone PyNone []
  = (Returned
       (PyDict [ ("status"%string, PyStr "success");
                 ("items"%string,
                  PyList [ PyDict [ ("object_key"%string, PyStr "file1.txt");
                                    ("image_tag"%string, PyStr "2cf24dba5fb0") ] ]) ]),
     snd (upload_to_ecr Reference.lib Reference.env
            (Reference.services Reference.base) "file1.txt"
            (bytes_of_string "hello")
            [ Log INFO "Lambda function started.";
              Request (describe_repositories [Some "s3-backup"%string]);
              Log INFO "ECR repository 's3-backup' already exists.";
              Log INFO ("ECR repository URI: " ++ Reference.uri);
              Request (list_objects_v2 (Some "backup-source"%string) "");
              Log INFO "Processing S3 object: file1.txt";
              Request (get_object (Some "backup-source"%string) "file1.txt") ])
     ++ [Log INFO "Backup completed for 1 objects."]).
Proof.
  apply (single_object_run_reports_key_and_tag
           Reference.lib Reference.env (Reference.services Reference.base) []
           [ Log INFO "Lambda function started.";
             Request (describe_repositories [Some "s3-backup"%string]);
             Log INFO "ECR repository 's3-backup' already exists." ]
           (snd (upload_to_ecr Reference.lib Reference.env
                   (Reference.services Reference.base) "file1.txt"
                   (bytes_of_string "hello")
                   [ Log INFO "Lambda function started.";
                     Request (describe_repositories [Some "s3-backup"%string]);
                     Log INFO "ECR repository 's3-backup' already exists.";
                     Log INFO ("ECR repository URI: " ++ Reference.uri);
                     Request (list_objects_v2 (Some "backup-source"%string) "");
                     Log INFO "Processing S3 object: file1.txt";
                     Request (get_object (Some "backup-source"%string) "file1.txt") ]))
           Reference.uri "2cf24dba5fb0" PyNone PyNone);
    vm_compute; reflexivity.
Defined.

(** C9, as the code has it.  The run tests whether the answer of the
    listing has a [Contents] entry, not whether it holds keys.  For a listing
    without keys: when the answer has no [Contents] entry the run returns the
    status [no_objects]; when it has one, with an empty list, the run returns
    the status [success] with no items.  In both cases the run does not
    raise, and its calls are those of repository provisioning followed by the
    listing call: no authorization, layer upload, manifest push or sweep call
    is made. *)
Theorem empty_listing_returns_no_objects
    (lib : pylib) (env : environ) (aws : world) (t t1 : list event)
    (uri : string) (r : list_objects_v2_response) (event context : pyval) :
  let listing := list_objects_v2 (S3_BUCKET_NAME env) (S3_PREFIX_FILTER env) in
  ensure_repository_exists env aws (t ++ [Log INFO "Lambda function started."])
  = (Returned uri, t1) ->
  aws (t1 ++ [Log INFO ("ECR repository URI: " ++ uri)]) listing = Reply r ->
  get_default (Contents r) = [] ->
  (Contents r = None ->
   fst (lambda_handler lib env aws event context t)
   = Returned (PyDict [("status"%string, PyStr "no_objects")])) /\
  (Contents r = Some [] ->
   fst (lambda_handler lib env aws event context t)
   = Returned (PyDict [ ("status"%string, PyStr "success");
                        ("items"%string, PyList []) ])) /\
  exists provisioning_calls,
    requests_of (snd (lambda_handler lib env aws event context t))
    = requests_of t ++ provisioning_calls ++ [listing] /\
    Forall (fun c => c = describe_repositories [ECR_REPO_NAME env] \/
                     c = create_repository (ECR_REPO_NAME env))
           provisioning_calls.
Proof.
  intros listing Hrepo Hlist Hkeys.
  rewrite (lambda_handler_listed lib env aws t t1 uri _ event context Hrepo Hlist).
  destruct (ensure_repository_exists_emits env aws
              (t ++ [Log INFO "Lambda function started."])) as [es [E F]].
  rewrite Hrepo in E. cbn [snd] in E. subst t1.
  destruct (Contents r) as [contents|]; cbn [get_default] in Hkeys.
  - subst contents. cbn [process_objects ret fst snd].
    split; [discriminate|]. split; [reflexivity|].
    exists (requests_of es). split.
    + rewrite !requests_of_app. cbn [requests_of].
      now rewrite app_nil_r, <- !app_assoc.
    + now apply provisioning_requests.
  - cbn [fst snd]. split; [reflexivity|]. split; [discriminate|].
    exists (requests_of es). split.
    + rewrite !requests_of_app. cbn [requests_of].
      now rewrite app_nil_r, <- app_assoc.
    + now apply provisioning_requests.
Qed.

Lemma empty_listing_sample :
  fst (lambda_handler Reference.lib Reference.env
         (Reference.services
            (Reference.with_objects (Reply {| Contents := None |})
               (fun _ => Fault Reference.access_denied) Reference.base))
         PyNone PyNone [])
  = Returned (PyDict [("status"%string, PyStr "no_objects")]) /\
  exists provisioning_calls,
    requests_of
      (snd (lambda_handler Reference.lib Reference.env
              (Reference.services
                 (Reference.with_objects (Reply {| Contents := None |})
                    (fun _ => Fault Reference.access_denied) Reference.base))
              PyNone PyNone []))
    = requests_of [] ++ provisioning_calls
      ++ [list_objects_v2 (Some "backup-source"%string) ""] /\
    Forall (fun c => c = describe_repositories [Some "s3-backup"%string] \/
                     c = create_repository (Some "s3-backup"%string))
           provisioning_calls.
Proof.
  destruct (empty_listing_returns_no_objects
              Reference.lib Reference.env
              (Reference.services
                 (Reference.with_objects (Reply {| Contents := None |})
                    (fun _ => Fault Reference.access_denied) Reference.base))
              []
              [ Log INFO "Lambda function started.";
                Request (describe_repositories [Some "s3-backup"%string]);
                Log INFO "ECR repository 's3-backup' already exists." ]
              Reference.uri {| Contents := None |} PyNone PyNone)
    as (Hnone & _ & Hcalls); try reflexivity.
  split; [apply Hnone; reflexivity | exact Hcalls].
Defined.

(** C9 as stated fails: a listing answered with an empty [Contents] list
    returns no keys, yet the run returns the status [success] with an empty
    list of items, not the status [no_objects]. *)
Lemma listing_without_keys_returns_success :
  Reference.sc_listing
    (Reference.with_objects (Reference.listing [])
       (fun _ => Fault Reference.access_denied) Reference.base)
  = Reply {| Contents := Some [] |} /\
  fst (lambda_handler Reference.lib Reference.env
         (Reference.services
            (Reference.with_objects (Reference.listing [])
               (fun _ => Fault Reference.access_denied) Reference.base))
         PyNone PyNone [])
  = Returned (PyDict [ ("status"%string, PyStr "success");
                       ("items"%string, PyList []) ]) /\
  fst (lambda_handler Reference.lib Reference.env
         (Reference.services
            (Reference.with_objects (Reference.listing [])
               (fun _ => Fault Reference.access_denied) Reference.base))
         PyNone PyNone [])
  <> Returned (PyDict [("status"%string, PyStr "no_objects")]).
Proof.
  split; [reflexivity|]. split; [reflexivity|].
  vm_compute. discriminate.
Qed.

(** C7, as the code has it.  When the fetch of every listed object either
    gives bytes, whose publish then returns, or fails with a [ClientError]
    (each at the history at which the run reaches it, [served]), the run does
    not abort: it returns the status [success] with one item per object that
    was fetched, in listing order, each pairing the key with the tag of its
    bytes; the objects whose fetch failed are absent. *)
Theorem fetch_client_errors_are_skipped
    (lib : pylib) (env : environ) (aws : world)
    (contents : list s3_object) (fetched : list (reply (list byte)))
    (t t1 : list event) (uri : string) (event context : pyval) :
  let listing := list_objects_v2 (S3_BUCKET_NAME env) (S3_PREFIX_FILTER env) in
  ensure_repository_exists env aws (t ++ [Log INFO "Lambda function started."])
  = (Returned uri, t1) ->
  aws (t1 ++ [Log INFO ("ECR repository URI: " ++ uri)]) listing
  = Reply {| Contents := Some contents |} ->
  served lib env aws contents fetched
    (t1 ++ [Log INFO ("ECR repository URI: " ++ uri); Request listing]) ->
  fst (lambda_handler lib env aws event context t)
  = Returned (PyDict [ ("status"%string, PyStr "success");
                       ("items"%string, PyList (reported contents fetched)) ]).
Proof.
  intros listing Hrepo Hlist Hserved.
  rewrite (lambda_handler_listed lib env aws t t1 uri _ event context Hrepo Hlist).
  cbn [Contents].
  destruct (process_objects_served lib env aws contents fetched [] _ Hserved)
    as [t' E].
  fold listing. rewrite E. reflexivity.
Qed.

(** Objects A, B and C, of which B cannot be fetched, against services that
    moreover refuse the part of an object without bytes: the report holds A
    and C. *)
Lemma fetch_client_errors_are_skipped_sample :
  fst (lambda_handler Reference.lib Reference.env
         (Outage.refusing Outage.empty_part Reference.invalid_range
            (Reference.services (Reference.three_objects Reference.access_denied)))
         PyNone PyNone [])
  = Returned
      (PyDict [ ("status"%string, PyStr "success");
                ("items"%string,
                 PyList [ PyDict [ ("object_key"%string, PyStr "A");
                                   ("image_tag"%string, PyStr "559aead08264") ];
                          PyDict [ ("object_key"%string, PyStr "C");
                                   ("image_tag"%string, PyStr "6b23c0d5f35d") ] ]) ]).
Proof.
  assert (reported [ {| Key := "A" |}; {| Key := "B" |}; {| Key := "C" |} ]
            [ Reply (bytes_of_string "A"); Fault Reference.access_denied;
              Reply (bytes_of_string "C") ]
          = [ PyDict [ ("object_key"%string, PyStr "A");
                       ("image_tag"%string, PyStr "559aead08264") ];
              PyDict [ ("object_key"%string, PyStr "C");
                       ("image_tag"%string, PyStr "6b23c0d5f35d") ] ]) as R
    by (vm_compute; reflexivity).
  rewrite <- R.
  apply (fetch_client_errors_are_skipped
           Reference.lib Reference.env
           (Outage.refusing Outage.empty_part Reference.invalid_range
              (Reference.services (Reference.three_objects Reference.access_denied)))
           [ {| Key := "A" |}; {| Key := "B" |}; {| Key := "C" |} ]
           [ Reply (bytes_of_string "A"); Fault Reference.access_denied;
             Reply (bytes_of_string "C") ]
           []
           [ Log INFO "Lambda function started.";
             Request (describe_repositories [Some "s3-backup"%string]);
             Log INFO "ECR repository 's3-backup' already exists." ]
           Reference.uri PyNone PyNone).
  - reflexivity.
  - reflexivity.
  - vm_compute.
    split; [reflexivity|]. eexists. eexists. split; [reflexivity|].
    split; [reflexivity|]. split; [reflexivity|].
    split; [reflexivity|]. eexists. eexists. split; [reflexivity|].
    exact I.
Defined.

(** C7 as stated fails: of three listed objects the second cannot be
    fetched because the connection is lost, which is no [ClientError]; the
    run publishes the first object and then aborts with that exception, and
    the third object is never fetched. *)
Lemma fetch_failure_of_another_class_aborts :
  fst (lambda_handler Reference.lib Reference.env
         (Reference.services (Reference.three_objects Reference.connection_lost))
         PyNone PyNone [])
  = Raised (OtherException "EndpointConnectionError"
              "Could not connect to the endpoint URL") /\
  filter (fun c => match c with get_object _ _ => true | _ => false end)
    (requests_of
       (snd (lambda_handler Reference.lib Reference.env
               (Reference.services
                  (Reference.three_objects Reference.connection_lost))
               PyNone PyNone [])))
  = [ get_object (Some "backup-source"%string) "A";
      get_object (Some "backup-source"%string) "B" ].
Proof. split; vm_compute; reflexivity. Qed.


(** ** Further properties of the code *)

(** X1.  The SHA-256 model on the test vectors of the standard: the empty
    message, [abc], and a message of 120 bytes, which pads to three blocks. *)
Lemma sha256_test_vectors :
  SHA256.hexdigest []
  = "e3b0c44298fc1c149afbf4c8996fb92427ae41e4649b934ca495991b7852b855"%string /\
  SHA256.hexdigest (bytes_of_string "abc")
  = "ba7816bf8f01cfea414140de5dae2223b00361a396177a9cb410ff61f20015ad"%string /\
  SHA256.hexdigest (repeat "a"%byte 120)
  = "2f3d335432c70b580af0e8e1b3674a7c020d683aa5f73aaaedfdc55af904c21c"%string.
Proof. split; [|split]; vm_compute; reflexivity. Qed.

(** X2.  A failure of repository provisioning is fatal: the exception that
    [ensure_repository_exists] raises is the outcome of the run, and nothing
    is listed, fetched or published. *)
Theorem provisioning_failure_aborts_run
    (lib : pylib) (env : environ) (aws : world) (t t1 : list event) (e : exn)
    (event context : pyval) :
  ensure_repository_exists env aws (t ++ [Log INFO "Lambda function started."])
  = (Raised e, t1) ->
  lambda_handler lib env aws event context t = (Raised e, t1).
Proof.
  intros H.
  cbv beta iota zeta delta [lambda_handler bind log].
  rewrite H. reflexivity.
Qed.

Lemma provisioning_failure_sample :
  lambda_handler Reference.lib Reference.env
    (Reference.services
       (Reference.with_repositories
          (Fault (ClientError "ThrottlingException" "Rate exceeded"))
          Reference.base))
    PyNone PyNone []
  = (Raised (ClientError "ThrottlingException" "Rate exceeded"),
     [ Log INFO "Lambda function started.";
       Request (describe_repositories [Some "s3-backup"%string]) ]).
Proof.
  apply (provisioning_failure_aborts_run Reference.lib Reference.env
           (Reference.services
              (Reference.with_repositories
                 (Fault (ClientError "ThrottlingException" "Rate exceeded"))
                 Reference.base))
           []).
  reflexivity.
Defined.

(** X3.  A [ClientError] of the listing call is logged and raised again:
    the run ends with that exception, after the error record. *)
Theorem listing_failure_is_logged_and_raised
    (lib : pylib) (env : environ) (aws : world) (t t1 : list event)
    (uri : string) (e : exn) (event context : pyval) :
  let listing := list_objects_v2 (S3_BUCKET_NAME env) (S3_PREFIX_FILTER env) in
  ensure_repository_exists env aws (t ++ [Log INFO "Lambda function started."])
  = (Returned uri, t1) ->
  aws (t1 ++ [Log INFO ("ECR repository URI: " ++ uri)]) listing = Fault e ->
  is_ClientError e = true ->
  lambda_handler lib env aws event context t
  = (Raised e,
     t1 ++ [ Log INFO ("ECR repository URI: " ++ uri); Request listing;
             Log ERROR ("Error reading S3 bucket: " ++ str_exn e) ]).
Proof.
  intros listing Hrepo Hlist He.
  cbv beta iota zeta delta [lambda_handler bind log request ret try_except raise].
  rewrite Hrepo. cbv beta iota. fold listing. rewrite Hlist. cbv beta iota.
  rewrite He. cbv beta iota. flatten_trace. reflexivity.
Qed.

Lemma listing_failure_sample :
  lambda_handler Reference.lib Reference.env
    (Reference.services
       (Reference.with_objects (Fault Reference.access_denied)
          (fun _ => Fault Reference.access_denied) Reference.base))
    PyNone PyNone []
  = (Raised Reference.access_denied,
     [ Log INFO "Lambda function started.";
       Request (describe_repositories [Some "s3-backup"%string]);
       Log INFO "ECR repository 's3-backup' already exists.";
       Log INFO ("ECR repository URI: " ++ Reference.uri);
       Request (list_objects_v2 (Some "backup-source"%string) "");
       Log ERROR ("Error reading S3 bucket: " ++ str_exn Reference.access_denied) ]).
Proof.
  apply (listing_failure_is_logged_and_raised Reference.lib Reference.env
           (Reference.services
              (Reference.with_objects (Fault Reference.access_denied)
                 (fun _ => Fault Reference.access_denied) Reference.base))
           []
           [ Log INFO "Lambda function started.";
             Request (describe_repositories [Some "s3-backup"%string]);
             Log INFO "ECR repository 's3-backup' already exists." ]
           Reference.uri Reference.access_denied PyNone PyNone);
    vm_compute; reflexivity.
Defined.

(** X4.  A failure of a publish is fatal to the run: when the publish of
    the first fetched object raises, the run raises the same exception and
    leaves the trace where the publish left it; the remaining objects are
    not processed and no report is returned. *)
Theorem publish_failure_aborts_run
    (lib : pylib) (env : environ) (aws : world) (t t1 t2 : list event)
    (uri : string) (obj : s3_object) (rest : list s3_object)
    (file_bytes : list byte) (e : exn) (event context : pyval) :
  let listing := list_objects_v2 (S3_BUCKET_NAME env) (S3_PREFIX_FILTER env) in
  let fetching := get_object (S3_BUCKET_NAME env) (Key obj) in
  let processing := Log INFO ("Processing S3 object: " ++ Key obj) in
  ensure_repository_exists env aws (t ++ [Log INFO "Lambda function started."])
  = (Returned uri, t1) ->
  aws (t1 ++ [Log INFO ("ECR repository URI: " ++ uri)]) listing
  = Reply {| Contents := Some (obj :: rest) |} ->
  aws (t1 ++ [Log INFO ("ECR repository URI: " ++ uri); Request listing; processing])
      fetching
  = Reply file_bytes ->
  upload_to_ecr lib env aws (Key obj) file_bytes
    (t1 ++ [ Log INFO ("ECR repository URI: " ++ uri); Request listing;
             processing; Request fetching ])
  = (Raised e, t2) ->
  lambda_handler lib env aws event context t = (Raised e, t2).
Proof.
  intros listing fetching processing Hrepo Hlist Hfetch Hup.
  rewrite (lambda_handler_listed lib env aws t t1 uri _ event context Hrepo Hlist).
  cbn [Contents].
  rewrite (process_objects_fetched lib env aws obj rest [] _ file_bytes);
    [|rewrite <- app_assoc; exact Hfetch].
  rewrite <- app_assoc. cbn [Datatypes.app].
  fold listing fetching processing. rewrite Hup. reflexivity.
Qed.

Lemma publish_failure_sample :
  lambda_handler Reference.lib Reference.env
    (Reference.services
       (Reference.with_token
          (Reference.token_reply "bm9jb2xvbg==" "https://registry.example")
          (Reference.three_objects Reference.access_denied)))
    PyNone PyNone []
  = (Raised (OtherException "ValueError"
               "not enough values to unpack (expected 2, got 1)"),
     [ Log INFO "Lambda function started.";
       Request (describe_repositories [Some "s3-backup"%string]);
       Log INFO "ECR repository 's3-backup' already exists.";
       Log INFO ("ECR repository URI: " ++ Reference.uri);
       Request (list_objects_v2 (Some "backup-source"%string) "");
       Log INFO "Processing S3 object: A";
       Request (get_object (Some "backup-source"%string) "A");
       Log INFO "Uploading S3 object 'A' to ECR...";
       Request get_authorization_token ]).
Proof.
  apply (publish_failure_aborts_run Reference.lib Reference.env
           (Reference.services
              (Reference.with_token
                 (Reference.token_reply "bm9jb2xvbg==" "https://registry.example")
                 (Reference.three_objects Reference.access_denied)))
           []
           [ Log INFO "Lambda function started.";
             Request (describe_repositories [Some "s3-backup"%string]);
             Log INFO "ECR repository 's3-backup' already exists." ]
           _ Reference.uri {| Key := "A" |}
           [ {| Key := "B" |}; {| Key := "C" |} ]
           (bytes_of_string "A"));
    vm_compute; reflexivity.
Defined.

(** *** Repository provisioning: edges *)

Ltac read_requests :=
  cbn [fst snd]; flatten_trace; rewrite ?requests_of_app; cbn [requests_of];
  rewrite ?app_nil_r.

(** X5.  The provisioner asks once whether the repository exists, and it
    calls [create_repository] exactly when that query raised the
    repository-not-found exception: whatever the services answer, the calls
    it makes are the query alone, or the query followed by one creation. *)
Theorem repository_created_only_when_not_found
    (env : environ) (aws : world) (t : list event) :
  requests_of (snd (ensure_repository_exists env aws t))
  = requests_of t
    ++ describe_repositories [ECR_REPO_NAME env]
       :: match aws t (describe_repositories [ECR_REPO_NAME env]) with
          | Fault e =>
              if is_RepositoryNotFoundException e
              then [create_repository (ECR_REPO_NAME env)]
              else []
          | Reply _ => []
          end.
Proof.
  cbv beta iota zeta delta
    [ensure_repository_exists bind log request ret index0 try_except raise].
  destruct (aws t (describe_repositories [ECR_REPO_NAME env])) as [found|e];
    cbv beta iota.
  - destruct (repositories found); cbv beta iota.
    + replace (is_RepositoryNotFoundException
                 (OtherException "IndexError" "list index out of range"))
        with false by reflexivity.
      read_requests; reflexivity.
    + read_requests; reflexivity.
  - destruct (is_RepositoryNotFoundException e); cbv beta iota; [|read_requests; reflexivity].
    destruct (aws _ (create_repository _)); read_requests; reflexivity.
Qed.

(** X6.  An answer of the query that lists no repository is not treated as
    "not found": the provisioner logs that the repository exists, then the
    indexing of the empty list raises IndexError, which reaches the caller;
    no repository is created. *)
Theorem empty_repository_list_raises_index_error
    (env : environ) (aws : world) (t : list event)
    (found : describe_repositories_response) :
  aws t (describe_repositories [ECR_REPO_NAME env]) = Reply found ->
  repositories found = [] ->
  ensure_repository_exists env aws t
  = (Raised (OtherException "IndexError" "list index out of range"),
     t ++ [ Request (describe_repositories [ECR_REPO_NAME env]);
            Log INFO ("ECR repository '" ++ str_env (ECR_REPO_NAME env)
                      ++ "' already exists.") ]).
Proof.
  intros H Hr.
  cbv beta iota zeta delta
    [ensure_repository_exists bind log request ret index0 try_except raise].
  rewrite H. cbv beta iota. rewrite Hr. cbv beta iota.
  replace (is_RepositoryNotFoundException
             (OtherException "IndexError" "list index out of range"))
    with false by reflexivity.
  flatten_trace. reflexivity.
Qed.

Lemma empty_repository_list_sample :
  ensure_repository_exists Reference.env
    (Reference.services
       (Reference.with_repositories (Reply {| repositories := [] |})
          Reference.base)) []
  = (Raised (OtherException "IndexError" "list index out of range"),
     [ Request (describe_repositories [Some "s3-backup"%string]);
       Log INFO ("ECR repository '" ++ str_env (Some "s3-backup"%string)
                 ++ "' already exists.") ]).
Proof.
  apply (empty_repository_list_raises_index_error Reference.env
           (Reference.services
              (Reference.with_repositories (Reply {| repositories := [] |})
                 Reference.base)) [] {| repositories := [] |});
    reflexivity.
Defined.

(** X7.  When the repository is not found and its creation fails, the
    exception of [create_repository] reaches the caller, whatever its class
    (the handler of the not-found exception is not itself guarded). *)
Theorem create_repository_failure_propagates
    (env : environ) (aws : world) (t : list event) (e e' : exn) :
  aws t (describe_repositories [ECR_REPO_NAME env]) = Fault e ->
  is_RepositoryNotFoundException e = true ->
  aws (t ++ [ Request (describe_repositories [ECR_REPO_NAME env]);
              Log INFO ("ECR repository '" ++ str_env (ECR_REPO_NAME env)
                        ++ "' not found, creating...") ])
      (create_repository (ECR_REPO_NAME env)) = Fault e' ->
  ensure_repository_exists env aws t
  = (Raised e',
     t ++ [ Request (describe_repositories [ECR_REPO_NAME env]);
            Log INFO ("ECR repository '" ++ str_env (ECR_REPO_NAME env)
                      ++ "' not found, creating...");
            Request (create_repository (ECR_REPO_NAME env)) ]).
Proof.
  intros H He Hc.
  cbv beta iota zeta delta
    [ensure_repository_exists bind log request ret index0 try_except raise].
  rewrite H. cbv beta iota. rewrite He. cbv beta iota.
  flatten_trace. rewrite Hc. cbv beta iota. flatten_trace. reflexivity.
Qed.

Lemma create_repository_failure_sample :
  ensure_repository_exists Reference.env
    (Reference.services
       {| Reference.sc_repositories :=
            Fault (RepositoryNotFoundException "not found");
          Reference.sc_created := Fault Reference.access_denied;
          Reference.sc_token := Reference.sc_token Reference.base;
          Reference.sc_listing := Reference.sc_listing Reference.base;
          Reference.sc_fetch := Reference.sc_fetch Reference.base;
          Reference.sc_untagged := Reference.sc_untagged Reference.base;
          Reference.sc_deleted := Reference.sc_deleted Reference.base |}) []
  = (Raised Reference.access_denied,
     [ Request (describe_repositories [Some "s3-backup"%string]);
       Log INFO ("ECR repository '" ++ str_env (Some "s3-backup"%string)
                 ++ "' not found, creating...");
       Request (create_repository (Some "s3-backup"%string)) ]).
Proof.
  apply (create_repository_failure_propagates Reference.env
           (Reference.services
              {| Reference.sc_repositories :=
                   Fault (RepositoryNotFoundException "not found");
                 Reference.sc_created := Fault Reference.access_denied;
                 Reference.sc_token := Reference.sc_token Reference.base;
                 Reference.sc_listing := Reference.sc_listing Reference.base;
                 Reference.sc_fetch := Reference.sc_fetch Reference.base;
                 Reference.sc_untagged := Reference.sc_untagged Reference.base;
                 Reference.sc_deleted := Reference.sc_deleted Reference.base |})
           [] (RepositoryNotFoundException "not found"));
    reflexivity.
Defined.

(** *** The sweep: calls, batch and partial failure *)

(** X8.  Whatever the services answer, the sweep makes one listing call
    with the filter UNTAGGED and at most one batch-delete call, and no other
    call; the delete is issued exactly when the listing answered with at
    least one image, with the batch built from that answer. *)
Theorem cleanup_untagged_images_requests
    (lib : pylib) (env : environ) (aws : world) (t : list event) :
  requests_of (snd (cleanup_untagged_images lib env aws t))
  = requests_of t
    ++ describe_images (ECR_REPO_NAME env) "UNTAGGED"
       :: match aws (t ++ [Log INFO "Starting cleanup: deleting untagged images..."])
                    (describe_images (ECR_REPO_NAME env) "UNTAGGED") with
          | Reply images =>
              match get_default (imageDetails images) with
              | [] => []
              | d :: ds =>
                  [batch_delete_image (ECR_REPO_NAME env) (batch_of (d :: ds))]
              end
          | Fault _ => []
          end.
Proof.
  cbv beta iota zeta delta
    [cleanup_untagged_images bind log request ret try_except raise].
  destruct (aws _ (describe_images _ _)) as [images|e]; cbv beta iota.
  - destruct (get_default (imageDetails images)) as [|d ds]; cbv beta iota;
      [read_requests; reflexivity|].
    destruct (aws _ (batch_delete_image _ _)) as [r|e]; cbv beta iota.
    + destruct (get_default (failures r)); cbv beta iota; read_requests; reflexivity.
    + destruct (is_ClientError e); cbv beta iota; read_requests; reflexivity.
  - destruct (is_ClientError e); cbv beta iota; read_requests; reflexivity.
Qed.

Lemma batch_of_no_digest (image_ids : list image_detail) :
  Forall (fun img => imageDigest img = None) image_ids ->
  batch_of image_ids = [].
Proof.
  induction 1 as [|img l H _ IH]; [reflexivity|].
  unfold batch_of in *. cbn [flat_map]. now rewrite H, IH.
Qed.

(** X9.  The batch holds one identifier per listed image that has a digest,
    and it is not checked for emptiness: when images are listed but none of
    them carries an [imageDigest], the sweep still calls
    [batch_delete_image], with an empty list of identifiers. *)
Theorem cleanup_deletes_with_empty_batch
    (lib : pylib) (env : environ) (aws : world) (t : list event)
    (images : describe_images_response) (d : image_detail)
    (ds : list image_detail) :
  aws (t ++ [Log INFO "Starting cleanup: deleting untagged images..."])
      (describe_images (ECR_REPO_NAME env) "UNTAGGED") = Reply images ->
  get_default (imageDetails images) = d :: ds ->
  Forall (fun img => imageDigest img = None) (d :: ds) ->
  requests_of (snd (cleanup_untagged_images lib env aws t))
  = requests_of t
    ++ [ describe_images (ECR_REPO_NAME env) "UNTAGGED";
         batch_delete_image (ECR_REPO_NAME env) [] ].
Proof.
  intros H Hd Hnone.
  rewrite cleanup_untagged_images_requests, H, Hd.
  now rewrite (batch_of_no_digest _ Hnone).
Qed.

Lemma cleanup_deletes_with_empty_batch_sample :
  requests_of
    (snd (cleanup_untagged_images Reference.lib Reference.env
            (Reference.services
               (Reference.with_images
                  (Reply {| imageDetails :=
                              Some [ {| imageDigest := None |};
                                     {| imageDigest := None |} ] |})
                  (Reply {| imageIds := None; failures := None |})
                  Reference.base)) []))
  = requests_of []
    ++ [ describe_images (Some "s3-backup"%string) "UNTAGGED";
         batch_delete_image (Some "s3-backup"%string) [] ].
Proof.
  apply (cleanup_deletes_with_empty_batch Reference.lib Reference.env
           (Reference.services
              (Reference.with_images
                 (Reply {| imageDetails :=
                             Some [ {| imageDigest := None |};
                                    {| imageDigest := None |} ] |})
                 (Reply {| imageIds := None; failures := None |})
                 Reference.base)) []
           {| imageDetails :=
                Some [ {| imageDigest := None |}; {| imageDigest := None |} ] |}
           {| imageDigest := None |} [ {| imageDigest := None |} ]).
  - reflexivity.
  - reflexivity.
  - repeat constructor.
Defined.

(** X10.  A batch delete that is answered, even with failures for some
    identifiers, does not raise: the sweep logs the number of identifiers the
    answer reports as deleted (zero when the answer has no [imageIds]), logs
    one warning with the failures when there are any, and returns [None]. *)
Theorem cleanup_reports_partial_failures
    (lib : pylib) (env : environ) (aws : world) (t : list event)
    (images : describe_images_response) (d : image_detail)
    (ds : list image_detail) (r : batch_delete_image_response) :
  let starting := Log INFO "Starting cleanup: deleting untagged images..." in
  let listing := describe_images (ECR_REPO_NAME env) "UNTAGGED" in
  let deleting := batch_delete_image (ECR_REPO_NAME env) (batch_of (d :: ds)) in
  aws (t ++ [starting]) listing = Reply images ->
  get_default (imageDetails images) = d :: ds ->
  aws (t ++ [starting; Request listing]) deleting = Reply r ->
  cleanup_untagged_images lib env aws t
  = (Returned PyNone,
     t ++ [ starting; Request listing; Request deleting;
            Log INFO ("Deleted "
                      ++ str_nat (List.length (get_default (imageIds r)))
                      ++ " untagged images.") ]
       ++ match get_default (failures r) with
          | [] => []
          | f :: fs =>
              [ Log WARNING ("Some images failed to delete: "
                             ++ repr_failures lib (f :: fs)) ]
          end).
Proof.
  intros starting listing deleting H Hd Hr.
  cbv beta iota zeta delta
    [cleanup_untagged_images bind log request ret try_except raise].
  fold starting listing. rewrite H. cbv beta iota. rewrite Hd. cbv beta iota.
  flatten_trace. fold deleting. rewrite Hr. cbv beta iota.
  destruct (get_default (failures r)); cbv beta iota; flatten_trace; reflexivity.
Qed.

Lemma cleanup_reports_partial_failures_sample :
  cleanup_untagged_images Reference.lib Reference.env
    (Reference.services
       (Reference.with_images
          (Reply {| imageDetails :=
                      Some [ {| imageDigest := Some "sha256:0a"%string |};
                             {| imageDigest := Some "sha256:0b"%string |} ] |})
          (Reply {| imageIds := Some [ImageId "sha256:0a"];
                    failures :=
                      Some [ {| failureId := ImageId "sha256:0b";
                                failureCode := "ImageReferencedByManifestList";
                                failureReason := "still referenced" |} ] |})
          Reference.base)) []
  = (Returned PyNone,
     [ Log INFO "Starting cleanup: deleting untagged images...";
       Request (describe_images (Some "s3-backup"%string) "UNTAGGED");
       Request (batch_delete_image (Some "s3-backup"%string)
                  [ImageId "sha256:0a"; ImageId "sha256:0b"]);
       Log INFO "Deleted 1 untagged images.";
       Log WARNING
         ("Some images failed to delete: "
          ++ "[{'imageId': {'imageDigest': 'sha256:0b'}, "
          ++ "'failureCode': 'ImageReferencedByManifestList', "
          ++ "'failureReason': 'still referenced'}]") ]).
Proof.
  apply (cleanup_reports_partial_failures Reference.lib Reference.env
           (Reference.services
              (Reference.with_images
                 (Reply {| imageDetails :=
                             Some [ {| imageDigest := Some "sha256:0a"%string |};
                                    {| imageDigest := Some "sha256:0b"%string |} ] |})
                 (Reply {| imageIds := Some [ImageId "sha256:0a"];
                           failures :=
                             Some [ {| failureId := ImageId "sha256:0b";
                                       failureCode := "ImageReferencedByManifestList";
                                       failureReason := "still referenced" |} ] |})
                 Reference.base)) []
           {| imageDetails :=
                Some [ {| imageDigest := Some "sha256:0a"%string |};
                       {| imageDigest := Some "sha256:0b"%string |} ] |}
           {| imageDigest := Some "sha256:0a"%string |}
           [ {| imageDigest := Some "sha256:0b"%string |} ]
           {| imageIds := Some [ImageId "sha256:0a"];
              failures :=
                Some [ {| failureId := ImageId "sha256:0b";
                          failureCode := "ImageReferencedByManifestList";
                          failureReason := "still referenced" |} ] |});
    reflexivity.
Defined.

(** *** The publisher: order, failures, authentication, byte range *)

(** Every way a publish can go, by the answers it gets. *)
Ltac publish_cases lib aws :=
  cbv beta iota zeta delta
    [upload_to_ecr bind log request ret lift index0 unpack2 try_except raise];
  repeat
    (match goal with
     | |- context [match aws ?h ?c with _ => _ end] =>
         let r := fresh "r" in let e := fresh "e" in
         destruct (aws h c) as [r|e]
     | |- context [match authorizationData ?a with _ => _ end] =>
         destruct (authorizationData a) as [|? ?]
     | |- context [match b64decode lib ?x with _ => _ end] =>
         destruct (b64decode lib x) as [?|?]
     | |- context [match bytes_decode lib ?x with _ => _ end] =>
         destruct (bytes_decode lib x) as [?|?]
     | |- context [match split ?c ?x with _ => _ end] =>
         destruct (split c x) as [|? [|? [|? ?]]]
     | |- context [if is_ClientError ?e then _ else _] =>
         destruct (is_ClientError e)
     end; cbv beta iota).

(** The calls a publish adds to the trace. *)
Lemma upload_to_ecr_requests
    (lib : pylib) (env : environ) (aws : world) (object_key : string)
    (file_bytes : list byte) (t : list event) :
  exists es n upload_id,
    (1 <= n)%nat /\
    snd (upload_to_ecr lib env aws object_key file_bytes t) = t ++ es /\
    requests_of es = firstn n (publish_protocol env upload_id file_bytes).
Proof.
  publish_cases lib aws; eexists;
    first
      [ match goal with
        | session : response (initiate_layer_upload _) |- _ =>
            first
              [ exists 5%nat, (uploadId session); split; [lia|];
                split; [cbn [snd]; flatten_trace; reflexivity | reflexivity]
              | exists 4%nat, (uploadId session); split; [lia|];
                split; [cbn [snd]; flatten_trace; reflexivity | reflexivity]
              | exists 3%nat, (uploadId session); split; [lia|];
                split; [cbn [snd]; flatten_trace; reflexivity | reflexivity] ]
        end
      | exists 2%nat, EmptyString; split; [lia|];
        split; [cbn [snd]; flatten_trace; reflexivity | reflexivity]
      | exists 1%nat, EmptyString; split; [lia|];
        split; [cbn [snd]; flatten_trace; reflexivity | reflexivity] ].
Qed.

(** Every way a publish can go, with the answers that lead there. *)
Ltac publish_answers lib aws :=
  cbv beta iota zeta delta
    [upload_to_ecr bind log request ret lift index0 unpack2 try_except raise];
  repeat
    (match goal with
     | |- context [match aws ?h ?c with _ => _ end] =>
         let r := fresh "r" in let e := fresh "e" in let A := fresh "A" in
         destruct (aws h c) as [r|e] eqn:A
     | |- context [match authorizationData ?a with _ => _ end] =>
         destruct (authorizationData a) as [|? ?]
     | |- context [match b64decode lib ?x with _ => _ end] =>
         destruct (b64decode lib x) as [?|?]
     | |- context [match bytes_decode lib ?x with _ => _ end] =>
         destruct (bytes_decode lib x) as [?|?]
     | |- context [match split ?c ?x with _ => _ end] =>
         destruct (split c x) as [|? [|? [|? ?]]]
     | |- context [if is_ClientError ?e then _ else _] =>
         destruct (is_ClientError e)
     end; cbv beta iota).

(** The answer to a call of the protocol, read from the case at hand. *)
Ltac read_answer aws :=
  unfold answered; cbn [publish_protocol firstn map Datatypes.app];
  match goal with
  | A : aws ?h ?c = _ |- context [aws ?h' ?c'] =>
      change (aws h' c') with (aws h c); rewrite A; reflexivity
  end.

(** The publish has made the first [n] calls of the protocol. *)
Ltac protocol_stops_at aws n upload_id :=
  exists n, upload_id;
  split; [lia|];
  split; [cbn [snd]; rewrite requests_of_app; reflexivity|];
  split;
    [ let i := fresh "i" in let c := fresh "c" in
      let Hi := fresh "Hi" in let Hc := fresh "Hc" in
      intros i c Hi Hc; destruct i as [|[|[|[|i]]]]; try lia;
      cbn in Hc; injection Hc as Hc; subst c; read_answer aws |];
  split;
    [ let c := fresh "c" in
      let Hn := fresh "Hn" in let Hc := fresh "Hc" in
      intros c Hn Hc; try lia;
      cbn in Hc; injection Hc as Hc; subst c; read_answer aws |];
  split;
    [ let Hn := fresh "Hn" in
      intros Hn; try lia;
      match goal with
      | session : response (initiate_layer_upload _) |- _ =>
          exists session; split; [assumption | reflexivity]
      end |];
  let tag := fresh "tag" in let H := fresh "H" in
  intros tag H; first [reflexivity | discriminate H].

(** X11.  Whatever the services answer and however the publish ends, the
    calls it has made are a beginning of the one sequence token, initiate,
    transfer, complete, manifest push, under the upload identifier that
    initiate returned: no step is repeated or skipped.  Every call before the
    last one made was answered, at the history at which it was made, so that
    no part is sent without a session, no completion follows a refused part
    and no manifest is pushed unless the completion was answered; a sequence
    that stops between initiate and completion stops at a call that raised,
    and a publish that returns has made all five calls. *)
Theorem publish_calls_are_a_prefix_of_the_protocol
    (lib : pylib) (env : environ) (aws : world) (object_key : string)
    (file_bytes : list byte) (t : list event) :
  exists n upload_id,
    (1 <= n <= 5)%nat /\
    requests_of (snd (upload_to_ecr lib env aws object_key file_bytes t))
    = requests_of t ++ firstn n (publish_protocol env upload_id file_bytes) /\
    (forall i c,
        (S i < n)%nat ->
        nth_error (publish_protocol env upload_id file_bytes) i = Some c ->
        answered aws
          (t ++ Log INFO ("Uploading S3 object '" ++ object_key ++ "' to ECR...")
             :: map Request (firstn i (publish_protocol env upload_id file_bytes)))
          c = true) /\
    (forall c,
        (2 <= n < 5)%nat ->
        nth_error (publish_protocol env upload_id file_bytes) (n - 1) = Some c ->
        answered aws
          (t ++ Log INFO ("Uploading S3 object '" ++ object_key ++ "' to ECR...")
             :: map Request
                  (firstn (n - 1) (publish_protocol env upload_id file_bytes)))
          c = false) /\
    ((3 <= n)%nat ->
     exists session,
       aws (t ++ [ Log INFO ("Uploading S3 object '" ++ object_key ++ "' to ECR...");
                   Request get_authorization_token ])
           (initiate_layer_upload (ECR_REPO_NAME env)) = Reply session /\
       upload_id = uploadId session) /\
    (forall tag,
        fst (upload_to_ecr lib env aws object_key file_bytes t) = Returned tag ->
        n = 5%nat).
Proof.
  publish_answers lib aws; flatten_trace;
    first
      [ match goal with
        | session : response (initiate_layer_upload _) |- _ =>
            first
              [ protocol_stops_at aws 5%nat (uploadId session)
              | protocol_stops_at aws 4%nat (uploadId session)
              | protocol_stops_at aws 3%nat (uploadId session) ]
        end
      | protocol_stops_at aws 2%nat EmptyString
      | protocol_stops_at aws 1%nat EmptyString ].
Qed.

(** X14.  The bytes of an object are sent as one part: a publish makes at
    most one [upload_layer_part] call, which carries the whole object with
    first byte 0 and last byte [len(file_bytes) - 1]; for an empty object
    that is the range from 0 to -1 (the last byte before the first), and
    only then. *)
Theorem publish_transfers_object_as_one_part
    (lib : pylib) (env : environ) (aws : world) (object_key : string)
    (file_bytes : list byte) (t : list event) :
  exists es,
    snd (upload_to_ecr lib env aws object_key file_bytes t) = t ++ es /\
    (List.length (filter is_upload_layer_part (requests_of es)) <= 1)%nat /\
    forall repo upload_id first last blob,
      In (upload_layer_part repo upload_id first last blob) (requests_of es) ->
      first = 0%Z /\
      last = (Z.of_nat (List.length file_bytes) - 1)%Z /\
      blob = file_bytes /\
      ((last < first)%Z <-> file_bytes = []).
Proof.
  destruct (upload_to_ecr_requests lib env aws object_key file_bytes t)
    as (es & n & uid & Hn & E & R).
  exists es. split; [exact E|]. rewrite R. split.
  - destruct n as [|[|[|[|[|n]]]]]; cbn [publish_protocol firstn];
      rewrite ?firstn_nil; cbn [filter is_upload_layer_part List.length]; lia.
  - intros repo upload_id first last blob Hin.
    assert (upload_layer_part repo upload_id first last blob
            = upload_layer_part (ECR_REPO_NAME env) uid 0
                (Z.of_nat (List.length file_bytes) - 1) file_bytes) as Heq.
    { destruct n as [|[|[|[|[|n]]]]]; cbn [publish_protocol firstn] in Hin;
        rewrite ?firstn_nil in Hin; cbn [In] in Hin;
        repeat (destruct Hin as [Hin|Hin]; [try discriminate Hin|]);
        try contradiction; now symmetry. }
    injection Heq as -> -> -> -> ->.
    repeat split; try reflexivity.
    + intros H. destruct file_bytes; [reflexivity|]. cbn [List.length] in H. lia.
    + intros ->. cbn. lia.
Qed.

(** X12.  Once the token has been obtained and decoded, a publish that
    raises does so because one of the four registry calls of the protocol
    raised: the exception is that call's, the trace ends at that call, and it
    is followed by one error record exactly when the exception is a
    [ClientError] (other exceptions leave no record). *)
Theorem publish_failure_is_the_failing_call
    (lib : pylib) (env : environ) (aws : world) (object_key : string)
    (file_bytes : list byte) (t t' : list event)
    (auth : get_authorization_token_response) (e : exn) :
  aws (t ++ [Log INFO ("Uploading S3 object '" ++ object_key ++ "' to ECR...")])
      get_authorization_token = Reply auth ->
  token_decodes lib auth ->
  upload_to_ecr lib env aws object_key file_bytes t = (Raised e, t') ->
  exists h c upload_id,
    In c (tl (publish_protocol env upload_id file_bytes)) /\
    aws h c = Fault e /\
    t' = (h ++ [Request c])
         ++ (if is_ClientError e
             then [Log ERROR ("Failed to upload to ECR: " ++ str_exn e)]
             else []).
Proof.
  intros Hauth (d & ds & raw & text & u & p & Hd & Hraw & Htext & Hsplit).
  cbv beta iota zeta delta
    [upload_to_ecr bind log request ret lift index0 unpack2 try_except raise].
  rewrite Hauth. cbv beta iota. rewrite Hd. cbv beta iota.
  rewrite Hraw. cbv beta iota. rewrite Htext. cbv beta iota.
  rewrite Hsplit. cbv beta iota.
  assert (forall (h : list event) (c : call) (e1 : exn) (upload_id : string),
             aws h c = Fault e1 ->
             In c (tl (publish_protocol env upload_id file_bytes)) ->
             (if is_ClientError e1
              then (Raised e1,
                    (h ++ [Request c])
                    ++ [Log ERROR ("Failed to upload to ECR: " ++ str_exn e1)])
              else (@Raised string e1, h ++ [Request c]))
             = (Raised e, t') ->
             exists h c upload_id,
               In c (tl (publish_protocol env upload_id file_bytes)) /\
               aws h c = Fault e /\
               t' = (h ++ [Request c])
                    ++ (if is_ClientError e
                        then [Log ERROR ("Failed to upload to ECR: " ++ str_exn e)]
                        else [])) as Hfail.
  { intros h c e1 upload_id Hf Hin Hr.
    exists h, c, upload_id.
    destruct (is_ClientError e1) eqn:Hc; injection Hr as <- <-;
      rewrite Hc; repeat split; auto.
    now rewrite app_nil_r. }
  destruct (aws _ (initiate_layer_upload _)) as [session|e1] eqn:H1;
    cbv beta iota;
    [|apply (Hfail _ _ _ EmptyString H1); cbn; auto].
  destruct (aws _ (upload_layer_part _ _ _ _ _)) as [[]|e1] eqn:H2;
    cbv beta iota;
    [|apply (Hfail _ _ _ (uploadId session) H2); cbn; auto].
  destruct (aws _ (complete_layer_upload _ _ _)) as [[]|e1] eqn:H3;
    cbv beta iota;
    [|apply (Hfail _ _ _ (uploadId session) H3); cbn; auto].
  destruct (aws _ (put_image _ _ _)) as [[]|e1] eqn:H4;
    cbv beta iota;
    [|apply (Hfail _ _ _ (uploadId session) H4); cbn; auto].
  discriminate.
Qed.

Lemma publish_failure_is_the_failing_call_sample :
  exists h c upload_id,
    In c (tl (publish_protocol Reference.env upload_id (bytes_of_string "hello"))) /\
    Outage.refusing is_put_image Reference.access_denied
      (Reference.services Reference.base) h c
    = Fault Reference.access_denied /\
    snd (upload_to_ecr Reference.lib Reference.env
           (Outage.refusing is_put_image Reference.access_denied
              (Reference.services Reference.base))
           "file1.txt" (bytes_of_string "hello") [])
    = (h ++ [Request c])
      ++ (if is_ClientError Reference.access_denied
          then [Log ERROR ("Failed to upload to ECR: "
                           ++ str_exn Reference.access_denied)]
          else []).
Proof.
  apply (publish_failure_is_the_failing_call Reference.lib Reference.env
           (Outage.refusing is_put_image Reference.access_denied
              (Reference.services Reference.base))
           "file1.txt" (bytes_of_string "hello") []
           (snd (upload_to_ecr Reference.lib Reference.env
                   (Outage.refusing is_put_image Reference.access_denied
                      (Reference.services Reference.base))
                   "file1.txt" (bytes_of_string "hello") []))
           {| authorizationData :=
                [ {| authorizationToken := "QVdTOnNlY3JldA==";
                     proxyEndpoint := "https://registry.example" |} ] |}
           Reference.access_denied).
  - reflexivity.
  - exists {| authorizationToken := "QVdTOnNlY3JldA==";
              proxyEndpoint := "https://registry.example" |}, [],
           (bytes_of_string "AWS:secret"), "AWS:secret"%string,
           "AWS"%string, "secret"%string.
    repeat split; reflexivity.
  - vm_compute. reflexivity.
Defined.

(** The parts of [split]: one more than the separators, and joined again
    they are the text. *)
Lemma split_length (sep : ascii) (s : string) :
  List.length (split sep s) = S (count_char sep s).
Proof.
  induction s as [|a s IH]; [reflexivity|].
  cbn [split count_char]. destruct (Ascii.eqb a sep).
  - cbn [List.length]. now rewrite IH.
  - destruct (split sep s) as [|p ps]; [discriminate IH|].
    cbn [List.length] in *. exact IH.
Qed.

Lemma join_split (sep : ascii) (s : string) : join sep (split sep s) = s.
Proof.
  induction s as [|a s IH]; [reflexivity|].
  cbn [split]. destruct (Ascii.eqb a sep) eqn:E.
  - apply Ascii.eqb_eq in E. subst a.
    pose proof (split_length sep s) as L.
    destruct (split sep s) as [|p ps]; [discriminate L|].
    cbn [join append] in *. now rewrite IH.
  - pose proof (split_length sep s) as L.
    destruct (split sep s) as [|p ps]; [discriminate L|].
    destruct ps as [|q qs]; cbn [join append] in *; now rewrite IH.
Qed.

(** X13.  Authentication is outside the guarded block.  When the token call
    raises, the publish raises the same exception with no error record and no
    upload call; and when the token decodes to text that does not hold
    exactly one colon, the unpacking into user name and password raises
    ValueError at the same point, again before any upload call. *)
Theorem publish_stops_at_authentication
    (lib : pylib) (env : environ) (aws : world) (object_key : string)
    (file_bytes : list byte) (t : list event) :
  let started :=
    Log INFO ("Uploading S3 object '" ++ object_key ++ "' to ECR...") in
  (forall e,
      aws (t ++ [started]) get_authorization_token = Fault e ->
      upload_to_ecr lib env aws object_key file_bytes t
      = (Raised e, t ++ [started; Request get_authorization_token])) /\
  (forall auth d ds raw text,
      aws (t ++ [started]) get_authorization_token = Reply auth ->
      authorizationData auth = d :: ds ->
      b64decode lib (authorizationToken d) = Reply raw ->
      bytes_decode lib raw = Reply text ->
      count_char ":" text <> 1%nat ->
      exists msg,
        upload_to_ecr lib env aws object_key file_bytes t
        = (Raised (OtherException "ValueError" msg),
           t ++ [started; Request get_authorization_token])).
Proof.
  intros started. split.
  - intros e H.
    cbv beta iota zeta delta
      [upload_to_ecr bind log request ret lift index0 unpack2 try_except raise].
    fold started. rewrite H. flatten_trace. reflexivity.
  - intros auth d ds raw text H Hd Hraw Htext Hcolons.
    pose proof (split_length ":" text) as L.
    cbv beta iota zeta delta
      [upload_to_ecr bind log request ret lift index0 unpack2 try_except raise].
    fold started. rewrite H. cbv beta iota. rewrite Hd. cbv beta iota.
    rewrite Hraw. cbv beta iota. rewrite Htext. cbv beta iota.
    destruct (split ":" text) as [|a [|b [|c l]]]; cbv beta iota;
      cbn [List.length] in L.
    + discriminate L.
    + eexists. flatten_trace. reflexivity.
    + exfalso. apply Hcolons. now injection L.
    + eexists. flatten_trace. reflexivity.
Qed.

Lemma publish_stops_at_authentication_sample :
  upload_to_ecr Reference.lib Reference.env
    (Outage.refusing is_token_request Reference.connection_lost
       (Reference.services Reference.base))
    "file1.txt" (bytes_of_string "hello") []
  = (Raised Reference.connection_lost,
     [ Log INFO "Uploading S3 object 'file1.txt' to ECR...";
       Request get_authorization_token ]) /\
  exists msg,
    upload_to_ecr Reference.lib Reference.env
      (Reference.services
         (Reference.with_token
            (Reference.token_reply "QVdTOnBhc3M6d29yZA==" "https://registry.example")
            Reference.base))
      "file1.txt" (bytes_of_string "hello") []
    = (Raised (OtherException "ValueError" msg),
       [ Log INFO "Uploading S3 object 'file1.txt' to ECR...";
         Request get_authorization_token ]).
Proof.
  split.
  - apply (proj1 (publish_stops_at_authentication Reference.lib Reference.env
                    (Outage.refusing is_token_request Reference.connection_lost
                       (Reference.services Reference.base))
                    "file1.txt" (bytes_of_string "hello") [])).
    reflexivity.
  - apply (proj2 (publish_stops_at_authentication Reference.lib Reference.env
                    (Reference.services
                       (Reference.with_token
                          (Reference.token_reply "QVdTOnBhc3M6d29yZA=="
                             "https://registry.example")
                          Reference.base))
                    "file1.txt" (bytes_of_string "hello") []))
      with (auth := {| authorizationData :=
                         [ {| authorizationToken := "QVdTOnBhc3M6d29yZA==";
                              proxyEndpoint := "https://registry.example" |} ] |})
           (d := {| authorizationToken := "QVdTOnBhc3M6d29yZA==";
                    proxyEndpoint := "https://registry.example" |})
           (ds := []) (raw := bytes_of_string "AWS:pass:word")
           (text := "AWS:pass:word"%string);
      try reflexivity.
    discriminate.
Defined.

(** *** The loop over the listing *)

Lemma filter_without (f : call -> bool) (es : list event) :
  Forall (without f) es -> filter f (requests_of es) = [].
Proof.
  induction 1 as [|[c|level msg] es H _ IH]; simpl; auto.
  simpl in H. now rewrite H.
Qed.

Lemma upload_to_ecr_without (f : call -> bool)
    (lib : pylib) (env : environ) (aws : world) (object_key : string)
    (file_bytes : list byte) :
  f get_authorization_token = false ->
  (forall u, f (initiate_layer_upload u) = false) ->
  (forall u i a b l, f (upload_layer_part u i a b l) = false) ->
  (forall u i d, f (complete_layer_upload u i d) = false) ->
  (forall u m tag, f (put_image u m tag) = false) ->
  emits (without f) (upload_to_ecr lib env aws object_key file_bytes).
Proof.
  intros H1 H2 H3 H4 H5. apply upload_to_ecr_emits; simpl; auto.
  intros c [[u ->]|[(u & i & x & y & l & ->)|[(u & i & ->)|(u & tag & ->)]]];
    auto.
Qed.

Section Loop.

Variable lib : pylib.
Variable env : environ.
Variable aws : world.

(** X15.  The loop fetches the listed objects one at a time and in listing
    order, each at most once: the [get_object] calls of the loop are those
    of a beginning of the listing, and of the whole listing when the loop
    runs to its end. *)
Theorem objects_are_fetched_once_in_listing_order
    (contents : list s3_object) (results : list pyval) (t : list event) :
  exists es n,
    (n <= List.length contents)%nat /\
    snd (process_objects lib env aws contents results t) = t ++ es /\
    filter is_get_object (requests_of es)
    = map (fun obj => get_object (S3_BUCKET_NAME env) (Key obj))
          (firstn n contents) /\
    (forall results',
        fst (process_objects lib env aws contents results t) = Returned results' ->
        n = List.length contents).
Proof.
  revert results t.
  induction contents as [|obj rest IH]; intros results t.
  - exists [], 0%nat. cbn. rewrite app_nil_r. auto.
  - destruct (aws (t ++ [Log INFO ("Processing S3 object: " ++ Key obj)])
                (get_object (S3_BUCKET_NAME env) (Key obj)))
      as [file_bytes|e] eqn:Hf.
    + rewrite (process_objects_fetched lib env aws obj rest results t file_bytes Hf).
      destruct (upload_to_ecr_without is_get_object lib env aws (Key obj) file_bytes)
        with (t := t ++ [ Log INFO ("Processing S3 object: " ++ Key obj);
                          Request (get_object (S3_BUCKET_NAME env) (Key obj)) ])
        as [es1 [E1 F1]]; try reflexivity.
      destruct (upload_to_ecr lib env aws (Key obj) file_bytes _)
        as [[tag|e] t1]; cbn [snd] in E1; subst t1.
      * destruct (IH (results ++ [report_item (Key obj) tag])
                    ((t ++ [ Log INFO ("Processing S3 object: " ++ Key obj);
                             Request (get_object (S3_BUCKET_NAME env) (Key obj)) ])
                     ++ es1))
          as (es2 & n & Hn & E2 & G2 & R2).
        exists ([ Log INFO ("Processing S3 object: " ++ Key obj);
                  Request (get_object (S3_BUCKET_NAME env) (Key obj)) ]
                ++ es1 ++ es2), (S n).
        split; [cbn [List.length]; lia|].
        split; [rewrite E2; now rewrite <- !app_assoc|].
        split.
        -- rewrite !requests_of_app, !filter_app, (filter_without _ _ F1), G2.
           reflexivity.
        -- intros results' H. now rewrite (R2 results' H).
      * exists ([ Log INFO ("Processing S3 object: " ++ Key obj);
                  Request (get_object (S3_BUCKET_NAME env) (Key obj)) ]
                ++ es1), 1%nat.
        split; [cbn [List.length]; lia|].
        split; [cbn [snd]; now rewrite <- !app_assoc|].
        split; [|intros results' H; discriminate H].
        rewrite !requests_of_app, !filter_app, (filter_without _ _ F1).
        reflexivity.
    + destruct (is_ClientError e) eqn:He.
      * rewrite (process_objects_skipped lib env aws obj rest results t e Hf He).
        destruct (IH results
                    (t ++ [ Log INFO ("Processing S3 object: " ++ Key obj);
                            Request (get_object (S3_BUCKET_NAME env) (Key obj));
                            Log ERROR ("Error downloading S3 object '" ++ Key obj
                                       ++ "': " ++ str_exn e) ]))
          as (es2 & n & Hn & E2 & G2 & R2).
        exists ([ Log INFO ("Processing S3 object: " ++ Key obj);
                  Request (get_object (S3_BUCKET_NAME env) (Key obj));
                  Log ERROR ("Error downloading S3 object '" ++ Key obj
                             ++ "': " ++ str_exn e) ] ++ es2), (S n).
        split; [cbn [List.length]; lia|].
        split; [rewrite E2; now rewrite <- !app_assoc|].
        split.
        -- rewrite !requests_of_app, !filter_app, G2. reflexivity.
        -- intros results' H. now rewrite (R2 results' H).
      * rewrite (process_objects_aborted lib env aws obj rest results t e Hf He).
        exists [ Log INFO ("Processing S3 object: " ++ Key obj);
                 Request (get_object (S3_BUCKET_NAME env) (Key obj)) ], 1%nat.
        split; [cbn [List.length]; lia|].
        split; [reflexivity|].
        split; [reflexivity | intros results' H; discriminate H].
Qed.

End Loop.



(** X17.  A listing that comes with contents, but with none in it, is not
    the [no_objects] case: the loop does nothing and the run returns the
    status [success] with an empty list of items, after logging that the
    backup was completed for 0 objects. *)
Theorem empty_contents_list_is_a_success
    (lib : pylib) (env : environ) (aws : world) (t t1 : list event)
    (uri : string) (event context : pyval) :
  let listing := list_objects_v2 (S3_BUCKET_NAME env) (S3_PREFIX_FILTER env) in
  ensure_repository_exists env aws (t ++ [Log INFO "Lambda function started."])
  = (Returned uri, t1) ->
  aws (t1 ++ [Log INFO ("ECR repository URI: " ++ uri)]) listing
  = Reply {| Contents := Some [] |} ->
  lambda_handler lib env aws event context t
  = (Returned (PyDict [ ("status"%string, PyStr "success");
                        ("items"%string, PyList []) ]),
     t1 ++ [ Log INFO ("ECR repository URI: " ++ uri); Request listing;
             Log INFO "Backup completed for 0 objects." ]).
Proof.
  intros listing Hrepo Hlist.
  rewrite (lambda_handler_listed lib env aws t t1 uri _ event context Hrepo Hlist).
  cbn [Contents process_objects ret]. flatten_trace. reflexivity.
Qed.

Lemma empty_contents_list_sample :
  lambda_handler Reference.lib Reference.env
    (Reference.services
       (Reference.with_objects (Reply {| Contents := Some [] |})
          (fun _ => Fault Reference.access_denied) Reference.base))
    PyNone PyNone []
  = (Returned (PyDict [ ("status"%string, PyStr "success");
                        ("items"%string, PyList []) ]),
     [ Log INFO "Lambda function started.";
       Request (describe_repositories [Some "s3-backup"%string]);
       Log INFO "ECR repository 's3-backup' already exists." ]
     ++ [ Log INFO ("ECR repository URI: " ++ Reference.uri);
          Request (list_objects_v2 (Some "backup-source"%string) "");
          Log INFO "Backup completed for 0 objects." ]).
Proof.
  apply (empty_contents_list_is_a_success Reference.lib Reference.env
           (Reference.services
              (Reference.with_objects (Reply {| Contents := Some [] |})
                 (fun _ => Fault Reference.access_denied) Reference.base))
           [] _ Reference.uri PyNone PyNone);
    reflexivity.
Defined.

Lemma process_objects_without (f : call -> bool)
    (lib : pylib) (env : environ) (aws : world) (contents : list s3_object) :
  (forall b k, f (get_object b k) = false) ->
  f get_authorization_token = false ->
  (forall u, f (initiate_layer_upload u) = false) ->
  (forall u i a b l, f (upload_layer_part u i a b l) = false) ->
  (forall u i d, f (complete_layer_upload u i d) = false) ->
  (forall u m tag, f (put_image u m tag) = false) ->
  forall results,
    emits (without f) (process_objects lib env aws contents results).
Proof.
  intros Hget H1 H2 H3 H4 H5.
  induction contents as [|obj rest IH]; intros results; cbn [process_objects].
  - apply emits_ret.
  - repeat emits_step; simpl; auto.
    now apply upload_to_ecr_without.
Qed.

(** X18.  The bucket is listed at most once in a run, whatever the services
    answer: no second [list_objects_v2] call is ever made, so the objects
    processed are those of the one answer. *)
Theorem bucket_is_listed_at_most_once
    (lib : pylib) (env : environ) (aws : world) (t : list event)
    (event context : pyval) :
  exists es,
    snd (lambda_handler lib env aws event context t) = t ++ es /\
    (List.length (filter is_listing (requests_of es)) <= 1)%nat.
Proof.
  destruct (ensure_repository_exists_emits env aws
              (t ++ [Log INFO "Lambda function started."])) as [es1 [E1 F1]].
  assert (filter is_listing (requests_of es1) = []) as N1.
  { apply filter_without. eapply Forall_impl; [|exact F1].
    intros [c|level msg]; simpl; [|auto]. intros [-> | ->]; reflexivity. }
  cbv beta iota zeta delta [lambda_handler bind log request ret try_except raise].
  destruct (ensure_repository_exists env aws _) as [[uri|e] t1];
    cbn [snd] in E1; subst t1; cbv beta iota.
  - destruct (aws _ (list_objects_v2 _ _)) as [r|e]; cbv beta iota.
    + destruct (Contents r) as [contents|]; cbv beta iota.
      * destruct (process_objects_without is_listing lib env aws contents)
          with (results := @nil pyval)
               (t := ((t ++ [Log INFO "Lambda function started."]) ++ es1)
                     ++ [Log INFO ("ECR repository URI: " ++ uri)]
                     ++ [Request (list_objects_v2 (S3_BUCKET_NAME env)
                                    (S3_PREFIX_FILTER env))])
          as [es2 [E2 F2]]; try reflexivity.
        rewrite ?app_assoc in E2.
        destruct (process_objects lib env aws contents [] _) as [[results|e] t2];
          cbn [snd] in E2; subst t2; cbv beta iota; eexists;
          (split; [cbn [snd]; rewrite <- !app_assoc; reflexivity|]);
          rewrite !requests_of_app, !filter_app, N1, (filter_without _ _ F2);
          cbn; lia.
      * eexists. split; [cbn [snd]; rewrite <- !app_assoc; reflexivity|].
        rewrite !requests_of_app, !filter_app, N1. cbn. lia.
    + destruct (is_ClientError e); cbv beta iota; eexists;
        (split; [cbn [snd]; rewrite <- !app_assoc; reflexivity|]);
        rewrite !requests_of_app, !filter_app, N1; cbn; lia.
  - eexists. split; [cbn [snd]; rewrite <- !app_assoc; reflexivity|].
    rewrite !requests_of_app, !filter_app, N1. cbn. lia.
Qed.

(** X19.  A publish that returns has declared, in its one completion call,
    a digest in the form of a registry digest: [sha256:] followed by the 64
    characters of the SHA-256 hexadecimal digest of the bytes, all of them
    lower-case hexadecimal digits.  That same text is the digest of the
    manifest it has pushed, and its first twelve hexadecimal digits are the
    tag pushed and returned. *)
Theorem declared_digest_is_sha256_and_64_hex_digits
    (lib : pylib) (env : environ) (aws : world) (object_key : string)
    (file_bytes : list byte) (t t' : list event) (tag : string) :
  upload_to_ecr lib env aws object_key file_bytes t = (Returned tag, t') ->
  exists es upload_id hex,
    t' = t ++ es /\
    requests_of es
    = [ get_authorization_token;
        initiate_layer_upload (ECR_REPO_NAME env);
        upload_layer_part (ECR_REPO_NAME env) upload_id 0
          (Z.of_nat (List.length file_bytes) - 1) file_bytes;
        complete_layer_upload (ECR_REPO_NAME env) upload_id
          [ ("sha256:" ++ hex)%string ];
        put_image (ECR_REPO_NAME env)
          (image_manifest ("sha256:" ++ hex) (List.length file_bytes)) tag ] /\
    hex = SHA256.hexdigest file_bytes /\
    String.length hex = 64%nat /\
    forallb is_hex (list_ascii_of_string hex) = true /\
    tag = substring 0 12 hex.
Proof.
  intros H.
  destruct (upload_to_ecr_returned _ _ _ _ _ _ _ _ H)
    as (_ & session & _ & _ & _ & -> & ->).
  eexists. exists (uploadId session), (SHA256.hexdigest file_bytes).
  split; [reflexivity|]. split; [reflexivity|]. split; [reflexivity|].
  split; [apply hexdigest_length|]. split; [apply hexdigest_hex | reflexivity].
Qed.

Lemma declared_digest_sample :
  exists es upload_id hex,
    snd (upload_to_ecr Reference.lib Reference.env
           (Reference.services Reference.base) "file1.txt"
           (bytes_of_string "hello") [])
    = [] ++ es /\
    requests_of es
    = [ get_authorization_token;
        initiate_layer_upload (Some "s3-backup"%string);
        upload_layer_part (Some "s3-backup"%string) upload_id 0 4
          (bytes_of_string "hello");
        complete_layer_upload (Some "s3-backup"%string) upload_id
          [ ("sha256:" ++ hex)%string ];
        put_image (Some "s3-backup"%string)
          (image_manifest ("sha256:" ++ hex) 5) "2cf24dba5fb0" ] /\
    hex = SHA256.hexdigest (bytes_of_string "hello") /\
    String.length hex = 64%nat /\
    forallb is_hex (list_ascii_of_string hex) = true /\
    "2cf24dba5fb0"%string = substring 0 12 hex.
Proof.
  apply (declared_digest_is_sha256_and_64_hex_digits Reference.lib Reference.env
           (Reference.services Reference.base) "file1.txt"
           (bytes_of_string "hello") []).
  vm_compute. reflexivity.
Defined.

(** X20.  An exception of the listing call that is not a [ClientError]
    also ends the run, but leaves no error record: the trace ends at the
    listing call. *)
Theorem listing_failure_of_another_class_is_not_logged
    (lib : pylib) (env : environ) (aws : world) (t t1 : list event)
    (uri : string) (e : exn) (event context : pyval) :
  let listing := list_objects_v2 (S3_BUCKET_NAME env) (S3_PREFIX_FILTER env) in
  ensure_repository_exists env aws (t ++ [Log INFO "Lambda function started."])
  = (Returned uri, t1) ->
  aws (t1 ++ [Log INFO ("ECR repository URI: " ++ uri)]) listing = Fault e ->
  is_ClientError e = false ->
  lambda_handler lib env aws event context t
  = (Raised e,
     t1 ++ [Log INFO ("ECR repository URI: " ++ uri); Request listing]).
Proof.
  intros listing Hrepo Hlist He.
  cbv beta iota zeta delta [lambda_handler bind log request ret try_except raise].
  rewrite Hrepo. cbv beta iota. fold listing. rewrite Hlist. cbv beta iota.
  rewrite He. flatten_trace. reflexivity.
Qed.

Lemma listing_failure_of_another_class_sample :
  lambda_handler Reference.lib Reference.env
    (Reference.services
       (Reference.with_objects (Fault Reference.connection_lost)
          (fun _ => Fault Reference.access_denied) Reference.base))
    PyNone PyNone []
  = (Raised Reference.connection_lost,
     [ Log INFO "Lambda function started.";
       Request (describe_repositories [Some "s3-backup"%string]);
       Log INFO "ECR repository 's3-backup' already exists." ]
     ++ [ Log INFO ("ECR repository URI: " ++ Reference.uri);
          Request (list_objects_v2 (Some "backup-source"%string) "") ]).
Proof.
  apply (listing_failure_of_another_class_is_not_logged
           Reference.lib Reference.env
           (Reference.services
              (Reference.with_objects (Fault Reference.connection_lost)
                 (fun _ => Fault Reference.access_denied) Reference.base))
           [] _ Reference.uri Reference.connection_lost PyNone PyNone);
    reflexivity.
Defined.

(** X21.  Splitting the decoded token at the colon loses nothing: the
    parts joined by colons give back the text, and there is one part more
    than there are colons.  Hence the unpacking into a user name and a
    password succeeds exactly when the text holds exactly one colon. *)
Theorem token_text_unpacks_iff_one_colon (text : string) (t : list event) :
  join ":" (split ":" text) = text /\
  List.length (split ":" text) = S (count_char ":" text) /\
  ((exists username password,
       unpack2 (split ":" text) t = (Returned (username, password), t)) <->
   count_char ":" text = 1%nat).
Proof.
  split; [apply join_split|]. split; [apply split_length|].
  pose proof (split_length ":" text) as L.
  destruct (split ":" text) as [|a [|b [|c l]]]; cbn [List.length] in L; split.
  - discriminate L.
  - discriminate L.
  - intros (u & p & H). discriminate H.
  - intros H. rewrite H in L. discriminate L.
  - intros _. now injection L.
  - intros _. exists a, b. reflexivity.
  - intros (u & p & H). discriminate H.
  - intros H. rewrite H in L. discriminate L.
Qed.
